(** * The in-memory store of the technology radar

    A shallow embedding of the [MemStorage] class (the server's storage
    module): its five [Map] collections, its five id counters, and the
    create / get / list / update / search methods over them.

    Every method of the class is [async] but contains no [await]: its body
    runs to completion when it is called, so a method is modelled as a pure
    function from the store before the call to the store after it and the
    value the returned promise resolves to. *)

From Stdlib Require Import ZArith List String Ascii Bool Sorted Lia.
Import ListNotations.
Open Scope Z_scope.

Set Implicit Arguments.

(* ===================================================================== *)
(** * JavaScript values used by the store *)
(* ===================================================================== *)

(** A JavaScript string is a sequence of UTF-16 code units. *)
Definition jsstring := list Z.

(** The code units of an ASCII literal. *)
Definition js (s : string) : jsstring :=
  List.map (fun c => Z.of_nat (nat_of_ascii c)) (list_ascii_of_string s).

(** An optional property of an input object ([website?: ...]): the key is
    either missing or carries a value of the declared type.  A nullable
    value ([string | null]) is an [option], with [None] for [null]. *)
Inductive optional (A : Type) : Type :=
| Absent : optional A
| Present : A -> optional A.
Arguments Absent {A}.
Arguments Present {A} _.

Module JsString.

(** [s === ""] *)
Definition is_empty (s : jsstring) : bool :=
  match s with [] => true | _ :: _ => false end.

(** Truthiness of a string: only the empty string is falsy. *)
Definition truthy (s : jsstring) : bool := negb (is_empty s).

(** The code units [String.prototype.trim] strips: ECMAScript's WhiteSpace
    and LineTerminator productions (all of them in the basic plane). *)
Definition isWhiteSpace (c : Z) : bool :=
  (c =? 9) || (c =? 10) || (c =? 11) || (c =? 12) || (c =? 13) || (c =? 32)
  || (c =? 160) || (c =? 5760) || ((8192 <=? c) && (c <=? 8202))
  || (c =? 8232) || (c =? 8233) || (c =? 8239) || (c =? 8287)
  || (c =? 12288) || (c =? 65279).

Fixpoint trimStart (s : jsstring) : jsstring :=
  match s with
  | [] => []
  | c :: s' => if isWhiteSpace c then trimStart s' else s
  end.

Definition trimEnd (s : jsstring) : jsstring := rev (trimStart (rev s)).

Definition trim (s : jsstring) : jsstring := trimEnd (trimStart s).

(** [s.startsWith(q)] *)
Fixpoint startsWith (s q : jsstring) {struct q} : bool :=
  match q, s with
  | [], _ => true
  | _ :: _, [] => false
  | c :: q', d :: s' => (c =? d) && startsWith s' q'
  end.

(** [s.includes(q)]: [q] occurs in [s] at some position. *)
Fixpoint includes (s q : jsstring) : bool :=
  startsWith s q ||
  match s with
  | [] => false
  | _ :: s' => includes s' q
  end.

(** What [toLowerCase] does on the letters A-Z; the built-in agrees with
    this function on every string of ASCII code units. *)
Definition ascii_lower_unit (c : Z) : Z :=
  if (65 <=? c) && (c <=? 90) then c + 32 else c.

Definition ascii_toLowerCase (s : jsstring) : jsstring :=
  List.map ascii_lower_unit s.

Definition is_ascii (s : jsstring) : Prop :=
  Forall (fun c => 0 <= c < 128) s.

End JsString.

(** [q] occurs in [s] as a contiguous run of code units. *)
Definition substring_of (q s : jsstring) : Prop :=
  exists pre post, s = pre ++ q ++ post.

(** [w || null] for a nullable, optional string: a missing key
    ([undefined]), [null] and the empty string are falsy. *)
Definition string_or_null (w : optional (option jsstring)) : option jsstring :=
  match w with
  | Present (Some s) => if JsString.truthy s then Some s else None
  | Present None => None
  | Absent => None
  end.

(** [a || []] for a nullable, optional array: every array is truthy, the
    empty one included. *)
Definition array_or_empty (A : Type) (a : optional (option (list A)))
  : option (list A) :=
  match a with
  | Present (Some l) => Some l
  | Present None => Some []
  | Absent => Some []
  end.

(** One property of [{ ...existing, ...update }]: taken from [update] when
    the key is there, kept from [existing] otherwise. *)
Definition spread (A : Type) (existing : A) (update : optional A) : A :=
  match update with
  | Present v => v
  | Absent => existing
  end.

(* ===================================================================== *)
(** * [Map<number, V>] *)
(* ===================================================================== *)

(** A JavaScript [Map] keeps its entries in insertion order; [set] on a key
    that is there replaces the value in place, and on a new key appends. *)
Module JsMap.
Section Defs.
Variable V : Type.

Definition t := list (Z * V).

Definition empty : t := [].

Fixpoint get (m : t) (k : Z) : option V :=
  match m with
  | [] => None
  | (k', v) :: m' => if k' =? k then Some v else get m' k
  end.

Fixpoint set (m : t) (k : Z) (v : V) : t :=
  match m with
  | [] => [(k, v)]
  | (k', v') :: m' =>
      if k' =? k then (k, v) :: m' else (k', v') :: set m' k v
  end.

(** [Array.from(m.values())] *)
Definition values (m : t) : list V := List.map snd m.

Definition keys (m : t) : list Z := List.map fst m.

End Defs.
Arguments empty {V}.
End JsMap.

(* ===================================================================== *)
(** * Entities *)
(* ===================================================================== *)

(** Modelled from the spec: the entity and input types of the shared
    schema module, which is not among the sources ([Technology],
    [InsertTechnology], [Quadrant], ...).  The fields are those of the
    spec's data model; which of them are nullable is read off the storage
    code ([website || null], [tech.tags ? ... : false], [color || null]).
    An [Insert...] type is the entity without its id, its nullable fields
    optional; [Partial<Insert...>] makes every field optional. *)
Module Technology.
Record t := mk {
  id : Z;
  name : jsstring;
  description : jsstring;
  quadrant : Z;
  ring : Z;
  website : option jsstring;
  tags : option (list jsstring);
  custom_properties : option jsstring
}.
End Technology.

Module InsertTechnology.
Record t := mk {
  name : jsstring;
  description : jsstring;
  quadrant : Z;
  ring : Z;
  website : optional (option jsstring);
  tags : optional (option (list jsstring));
  custom_properties : optional (option jsstring)
}.
End InsertTechnology.

Module PartialInsertTechnology.
Record t := mk {
  name : optional jsstring;
  description : optional jsstring;
  quadrant : optional Z;
  ring : optional Z;
  website : optional (option jsstring);
  tags : optional (option (list jsstring));
  custom_properties : optional (option jsstring)
}.
(** The object literal [{}]. *)
Definition none : t := mk Absent Absent Absent Absent Absent Absent Absent.
End PartialInsertTechnology.

(** Quadrants and rings have the same shape: id, name, description and a
    nullable colour. *)
Module Quadrant.
Record t := mk {
  id : Z;
  name : jsstring;
  description : jsstring;
  color : option jsstring
}.
End Quadrant.

Module InsertQuadrant.
Record t := mk {
  name : jsstring;
  description : jsstring;
  color : optional (option jsstring)
}.
End InsertQuadrant.

Module PartialInsertQuadrant.
Record t := mk {
  name : optional jsstring;
  description : optional jsstring;
  color : optional (option jsstring)
}.
Definition none : t := mk Absent Absent Absent.
End PartialInsertQuadrant.

Module Ring.
Record t := mk {
  id : Z;
  name : jsstring;
  description : jsstring;
  color : option jsstring
}.
End Ring.

Module InsertRing.
Record t := mk {
  name : jsstring;
  description : jsstring;
  color : optional (option jsstring)
}.
End InsertRing.

Module PartialInsertRing.
Record t := mk {
  name : optional jsstring;
  description : optional jsstring;
  color : optional (option jsstring)
}.
Definition none : t := mk Absent Absent Absent.
End PartialInsertRing.

Module Project.
Record t := mk {
  id : Z;
  name : jsstring;
  description : jsstring;
  status : jsstring;
  website : option jsstring;
  repository : option jsstring;
  image : option jsstring
}.
End Project.

Module InsertProject.
Record t := mk {
  name : jsstring;
  description : jsstring;
  status : jsstring;
  website : optional (option jsstring);
  repository : optional (option jsstring);
  image : optional (option jsstring)
}.
End InsertProject.

Module PartialInsertProject.
Record t := mk {
  name : optional jsstring;
  description : optional jsstring;
  status : optional jsstring;
  website : optional (option jsstring);
  repository : optional (option jsstring);
  image : optional (option jsstring)
}.
Definition none : t := mk Absent Absent Absent Absent Absent Absent.
End PartialInsertProject.

Module TechnologyProject.
Record t := mk {
  id : Z;
  technology_id : Z;
  project_id : Z;
  notes : option jsstring
}.
End TechnologyProject.

Module InsertTechnologyProject.
Record t := mk {
  technology_id : Z;
  project_id : Z;
  notes : optional (option jsstring)
}.
End InsertTechnologyProject.

Module PartialInsertTechnologyProject.
Record t := mk {
  technology_id : optional Z;
  project_id : optional Z;
  notes : optional (option jsstring)
}.
Definition none : t := mk Absent Absent Absent.
End PartialInsertTechnologyProject.

(* ===================================================================== *)
(** * The store *)
(* ===================================================================== *)

(** The fields of [MemStorage].  The id counters are JavaScript numbers
    that only ever hold 1, 2, 3, ...; they are integers here (a number
    holds every integer below 2^53 exactly). *)
Record MemStorage := mkMemStorage {
  technologies : JsMap.t Technology.t;
  quadrants : JsMap.t Quadrant.t;
  rings : JsMap.t Ring.t;
  projects : JsMap.t Project.t;
  technologyProjects : JsMap.t TechnologyProject.t;
  techCurrentId : Z;
  quadrantCurrentId : Z;
  ringCurrentId : Z;
  projectCurrentId : Z;
  techProjectCurrentId : Z
}.

Definition set_technologies (st : MemStorage) m : MemStorage :=
  mkMemStorage m (quadrants st) (rings st) (projects st)
    (technologyProjects st) (techCurrentId st) (quadrantCurrentId st)
    (ringCurrentId st) (projectCurrentId st) (techProjectCurrentId st).

Definition set_quadrants (st : MemStorage) m : MemStorage :=
  mkMemStorage (technologies st) m (rings st) (projects st)
    (technologyProjects st) (techCurrentId st) (quadrantCurrentId st)
    (ringCurrentId st) (projectCurrentId st) (techProjectCurrentId st).

Definition set_rings (st : MemStorage) m : MemStorage :=
  mkMemStorage (technologies st) (quadrants st) m (projects st)
    (technologyProjects st) (techCurrentId st) (quadrantCurrentId st)
    (ringCurrentId st) (projectCurrentId st) (techProjectCurrentId st).

Definition set_projects (st : MemStorage) m : MemStorage :=
  mkMemStorage (technologies st) (quadrants st) (rings st) m
    (technologyProjects st) (techCurrentId st) (quadrantCurrentId st)
    (ringCurrentId st) (projectCurrentId st) (techProjectCurrentId st).

Definition set_technologyProjects (st : MemStorage) m : MemStorage :=
  mkMemStorage (technologies st) (quadrants st) (rings st) (projects st)
    m (techCurrentId st) (quadrantCurrentId st)
    (ringCurrentId st) (projectCurrentId st) (techProjectCurrentId st).

Definition set_techCurrentId (st : MemStorage) n : MemStorage :=
  mkMemStorage (technologies st) (quadrants st) (rings st) (projects st)
    (technologyProjects st) n (quadrantCurrentId st)
    (ringCurrentId st) (projectCurrentId st) (techProjectCurrentId st).

Definition set_quadrantCurrentId (st : MemStorage) n : MemStorage :=
  mkMemStorage (technologies st) (quadrants st) (rings st) (projects st)
    (technologyProjects st) (techCurrentId st) n
    (ringCurrentId st) (projectCurrentId st) (techProjectCurrentId st).

Definition set_ringCurrentId (st : MemStorage) n : MemStorage :=
  mkMemStorage (technologies st) (quadrants st) (rings st) (projects st)
    (technologyProjects st) (techCurrentId st) (quadrantCurrentId st)
    n (projectCurrentId st) (techProjectCurrentId st).

Definition set_projectCurrentId (st : MemStorage) n : MemStorage :=
  mkMemStorage (technologies st) (quadrants st) (rings st) (projects st)
    (technologyProjects st) (techCurrentId st) (quadrantCurrentId st)
    (ringCurrentId st) n (techProjectCurrentId st).

Definition set_techProjectCurrentId (st : MemStorage) n : MemStorage :=
  mkMemStorage (technologies st) (quadrants st) (rings st) (projects st)
    (technologyProjects st) (techCurrentId st) (quadrantCurrentId st)
    (ringCurrentId st) (projectCurrentId st) n.

(** The first statements of [initializeData]: every map cleared, every
    counter reset to 1. *)
Definition reset : MemStorage :=
  mkMemStorage JsMap.empty JsMap.empty JsMap.empty JsMap.empty JsMap.empty
    1 1 1 1 1.

(* --------------------------------------------------------------------- *)
(** ** Technology methods *)
(* --------------------------------------------------------------------- *)

Definition getTechnology (st : MemStorage) (id : Z) : option Technology.t :=
  JsMap.get (technologies st) id.

Definition getTechnologies (st : MemStorage) : list Technology.t :=
  JsMap.values (technologies st).

Definition createTechnology (st : MemStorage)
  (insertTechnology : InsertTechnology.t) : MemStorage * Technology.t :=
  let id := techCurrentId st in
  let st := set_techCurrentId st (id + 1) in
  let technology :=
    {| Technology.id := id;
       Technology.name := InsertTechnology.name insertTechnology;
       Technology.description := InsertTechnology.description insertTechnology;
       Technology.quadrant := InsertTechnology.quadrant insertTechnology;
       Technology.ring := InsertTechnology.ring insertTechnology;
       Technology.website :=
         string_or_null (InsertTechnology.website insertTechnology);
       Technology.tags :=
         array_or_empty (InsertTechnology.tags insertTechnology);
       Technology.custom_properties :=
         string_or_null (InsertTechnology.custom_properties insertTechnology)
    |} in
  (set_technologies st (JsMap.set (technologies st) id technology),
   technology).

Definition updateTechnology (st : MemStorage) (id : Z)
  (technologyUpdate : PartialInsertTechnology.t)
  : MemStorage * option Technology.t :=
  match JsMap.get (technologies st) id with
  | None => (st, None)
  | Some existingTech =>
      let updatedTech :=
        {| Technology.id := Technology.id existingTech;
           Technology.name :=
             spread (Technology.name existingTech)
                    (PartialInsertTechnology.name technologyUpdate);
           Technology.description :=
             spread (Technology.description existingTech)
                    (PartialInsertTechnology.description technologyUpdate);
           Technology.quadrant :=
             spread (Technology.quadrant existingTech)
                    (PartialInsertTechnology.quadrant technologyUpdate);
           Technology.ring :=
             spread (Technology.ring existingTech)
                    (PartialInsertTechnology.ring technologyUpdate);
           Technology.website :=
             spread (Technology.website existingTech)
                    (PartialInsertTechnology.website technologyUpdate);
           Technology.tags :=
             spread (Technology.tags existingTech)
                    (PartialInsertTechnology.tags technologyUpdate);
           Technology.custom_properties :=
             spread (Technology.custom_properties existingTech)
                    (PartialInsertTechnology.custom_properties technologyUpdate)
        |} in
      (set_technologies st (JsMap.set (technologies st) id updatedTech),
       Some updatedTech)
  end.

Section Search.

(** [String.prototype.toLowerCase], a built-in of the language: the search
    is stated for whatever function it is. *)
Variable toLowerCase : jsstring -> jsstring.

(** The callback [searchTechnologies] filters with. *)
Definition searchFilter (lowerQuery : jsstring) (tech : Technology.t) : bool :=
  let nameMatch :=
    JsString.includes (toLowerCase (Technology.name tech)) lowerQuery in
  let descMatch :=
    JsString.includes (toLowerCase (Technology.description tech)) lowerQuery in
  let tagsMatch :=
    match Technology.tags tech with
    | Some tags =>
        existsb (fun tag => JsString.includes (toLowerCase tag) lowerQuery) tags
    | None => false
    end in
  nameMatch || descMatch || tagsMatch.

Definition searchTechnologies (st : MemStorage) (query : jsstring)
  : list Technology.t :=
  if JsString.is_empty query || JsString.is_empty (JsString.trim query)
  then getTechnologies st
  else
    let lowerQuery := toLowerCase query in
    filter (searchFilter lowerQuery) (JsMap.values (technologies st)).

End Search.

(* --------------------------------------------------------------------- *)
(** ** Quadrant methods *)
(* --------------------------------------------------------------------- *)

Definition getQuadrant (st : MemStorage) (id : Z) : option Quadrant.t :=
  JsMap.get (quadrants st) id.

Definition getQuadrants (st : MemStorage) : list Quadrant.t :=
  JsMap.values (quadrants st).

Definition createQuadrant (st : MemStorage)
  (insertQuadrant : InsertQuadrant.t) : MemStorage * Quadrant.t :=
  let id := quadrantCurrentId st in
  let st := set_quadrantCurrentId st (id + 1) in
  let quadrant :=
    {| Quadrant.id := id;
       Quadrant.name := InsertQuadrant.name insertQuadrant;
       Quadrant.description := InsertQuadrant.description insertQuadrant;
       Quadrant.color := string_or_null (InsertQuadrant.color insertQuadrant)
    |} in
  (set_quadrants st (JsMap.set (quadrants st) id quadrant), quadrant).

Definition updateQuadrant (st : MemStorage) (id : Z)
  (quadrantUpdate : PartialInsertQuadrant.t)
  : MemStorage * option Quadrant.t :=
  match JsMap.get (quadrants st) id with
  | None => (st, None)
  | Some existingQuadrant =>
      let updatedQuadrant :=
        {| Quadrant.id := Quadrant.id existingQuadrant;
           Quadrant.name :=
             spread (Quadrant.name existingQuadrant)
                    (PartialInsertQuadrant.name quadrantUpdate);
           Quadrant.description :=
             spread (Quadrant.description existingQuadrant)
                    (PartialInsertQuadrant.description quadrantUpdate);
           Quadrant.color :=
             spread (Quadrant.color existingQuadrant)
                    (PartialInsertQuadrant.color quadrantUpdate)
        |} in
      (set_quadrants st (JsMap.set (quadrants st) id updatedQuadrant),
       Some updatedQuadrant)
  end.

(* --------------------------------------------------------------------- *)
(** ** Ring methods *)
(* --------------------------------------------------------------------- *)

Definition getRing (st : MemStorage) (id : Z) : option Ring.t :=
  JsMap.get (rings st) id.

Definition getRings (st : MemStorage) : list Ring.t :=
  JsMap.values (rings st).

Definition createRing (st : MemStorage) (insertRing : InsertRing.t)
  : MemStorage * Ring.t :=
  let id := ringCurrentId st in
  let st := set_ringCurrentId st (id + 1) in
  let ring :=
    {| Ring.id := id;
       Ring.name := InsertRing.name insertRing;
       Ring.description := InsertRing.description insertRing;
       Ring.color := string_or_null (InsertRing.color insertRing)
    |} in
  (set_rings st (JsMap.set (rings st) id ring), ring).

Definition updateRing (st : MemStorage) (id : Z)
  (ringUpdate : PartialInsertRing.t) : MemStorage * option Ring.t :=
  match JsMap.get (rings st) id with
  | None => (st, None)
  | Some existingRing =>
      let updatedRing :=
        {| Ring.id := Ring.id existingRing;
           Ring.name :=
             spread (Ring.name existingRing)
                    (PartialInsertRing.name ringUpdate);
           Ring.description :=
             spread (Ring.description existingRing)
                    (PartialInsertRing.description ringUpdate);
           Ring.color :=
             spread (Ring.color existingRing)
                    (PartialInsertRing.color ringUpdate)
        |} in
      (set_rings st (JsMap.set (rings st) id updatedRing), Some updatedRing)
  end.

(* --------------------------------------------------------------------- *)
(** ** Project methods *)
(* --------------------------------------------------------------------- *)

(** Modelled from the spec: [getProject], whose body is cut off in the
    sources (only its signature is there).  The spec gives one pattern for
    all five collections: get returns the entity or an explicit not-found
    result. *)
Definition getProject (st : MemStorage) (id : Z) : option Project.t :=
  JsMap.get (projects st) id.

(** Modelled from the spec: [getProjects], not among the sources; list
    returns all entities of the mapping as a sequence in insertion order. *)
Definition getProjects (st : MemStorage) : list Project.t :=
  JsMap.values (projects st).

(** Modelled from the spec: [createProject], not among the sources (only
    calls of it in [initializeData] are).  Create assigns the collection's
    next id, fills unset optional fields with null the way the methods above
    do, stores the entity and returns it. *)
Definition createProject (st : MemStorage) (insertProject : InsertProject.t)
  : MemStorage * Project.t :=
  let id := projectCurrentId st in
  let st := set_projectCurrentId st (id + 1) in
  let project :=
    {| Project.id := id;
       Project.name := InsertProject.name insertProject;
       Project.description := InsertProject.description insertProject;
       Project.status := InsertProject.status insertProject;
       Project.website := string_or_null (InsertProject.website insertProject);
       Project.repository :=
         string_or_null (InsertProject.repository insertProject);
       Project.image := string_or_null (InsertProject.image insertProject)
    |} in
  (set_projects st (JsMap.set (projects st) id project), project).

(** Modelled from the spec: [updateProject], not among the sources.  Update
    merges the provided fields onto the existing entity (a shallow merge)
    and returns the merged entity, or not-found when the id does not
    exist. *)
Definition updateProject (st : MemStorage) (id : Z)
  (projectUpdate : PartialInsertProject.t) : MemStorage * option Project.t :=
  match JsMap.get (projects st) id with
  | None => (st, None)
  | Some existingProject =>
      let updatedProject :=
        {| Project.id := Project.id existingProject;
           Project.name :=
             spread (Project.name existingProject)
                    (PartialInsertProject.name projectUpdate);
           Project.description :=
             spread (Project.description existingProject)
                    (PartialInsertProject.description projectUpdate);
           Project.status :=
             spread (Project.status existingProject)
                    (PartialInsertProject.status projectUpdate);
           Project.website :=
             spread (Project.website existingProject)
                    (PartialInsertProject.website projectUpdate);
           Project.repository :=
             spread (Project.repository existingProject)
                    (PartialInsertProject.repository projectUpdate);
           Project.image :=
             spread (Project.image existingProject)
                    (PartialInsertProject.image projectUpdate)
        |} in
      (set_projects st (JsMap.set (projects st) id updatedProject),
       Some updatedProject)
  end.

(* --------------------------------------------------------------------- *)
(** ** Technology-project link methods *)
(* --------------------------------------------------------------------- *)

(** Modelled from the spec: the get of the link collection, not among the
    sources; same pattern as the other collections. *)
Definition getTechnologyProject (st : MemStorage) (id : Z)
  : option TechnologyProject.t :=
  JsMap.get (technologyProjects st) id.

(** Modelled from the spec: the list of the link collection, not among the
    sources. *)
Definition getTechnologyProjects (st : MemStorage)
  : list TechnologyProject.t :=
  JsMap.values (technologyProjects st).

(** Modelled from the spec: [linkTechnologyToProject], not among the
    sources (only a call of it in [initializeData] is).  It follows the
    create-with-id-assignment pattern of the other entities and does not
    check that the referenced technology and project exist. *)
Definition linkTechnologyToProject (st : MemStorage)
  (insertTechProject : InsertTechnologyProject.t)
  : MemStorage * TechnologyProject.t :=
  let id := techProjectCurrentId st in
  let st := set_techProjectCurrentId st (id + 1) in
  let techProject :=
    {| TechnologyProject.id := id;
       TechnologyProject.technology_id :=
         InsertTechnologyProject.technology_id insertTechProject;
       TechnologyProject.project_id :=
         InsertTechnologyProject.project_id insertTechProject;
       TechnologyProject.notes :=
         string_or_null (InsertTechnologyProject.notes insertTechProject)
    |} in
  (set_technologyProjects st
     (JsMap.set (technologyProjects st) id techProject),
   techProject).

(** Modelled from the spec: the update of the link collection, not among
    the sources; the shallow merge the spec gives for every collection. *)
Definition updateTechnologyProject (st : MemStorage) (id : Z)
  (techProjectUpdate : PartialInsertTechnologyProject.t)
  : MemStorage * option TechnologyProject.t :=
  match JsMap.get (technologyProjects st) id with
  | None => (st, None)
  | Some existingLink =>
      let updatedLink :=
        {| TechnologyProject.id := TechnologyProject.id existingLink;
           TechnologyProject.technology_id :=
             spread (TechnologyProject.technology_id existingLink)
               (PartialInsertTechnologyProject.technology_id techProjectUpdate);
           TechnologyProject.project_id :=
             spread (TechnologyProject.project_id existingLink)
               (PartialInsertTechnologyProject.project_id techProjectUpdate);
           TechnologyProject.notes :=
             spread (TechnologyProject.notes existingLink)
               (PartialInsertTechnologyProject.notes techProjectUpdate)
        |} in
      (set_technologyProjects st
         (JsMap.set (technologyProjects st) id updatedLink),
       Some updatedLink)
  end.

(* --------------------------------------------------------------------- *)
(** ** Seeding *)
(* --------------------------------------------------------------------- *)

(** The start of [initializeData]: the reset, then the four quadrants and
    the four rings, created in this order. *)
Definition seedQuadrants : list InsertQuadrant.t :=
  [ InsertQuadrant.mk (js "Techniques")
      (js "Elements of a software development process, such as experience design and coding practices")
      (Present (Some (js "#3b82f6")));
    InsertQuadrant.mk (js "Tools")
      (js "Software development tools and supporting services")
      (Present (Some (js "#8b5cf6")));
    InsertQuadrant.mk (js "Frameworks")
      (js "Programming frameworks and foundation libraries")
      (Present (Some (js "#f97316")));
    InsertQuadrant.mk (js "Platforms")
      (js "Things that we build software on top of: infrastructure, databases, etc.")
      (Present (Some (js "#ec4899"))) ].

Definition seedRings : list InsertRing.t :=
  [ InsertRing.mk (js "Adopt")
      (js "We strongly recommend using these technologies when appropriate")
      (Present (Some (js "#10b981")));
    InsertRing.mk (js "Trial")
      (js "These technologies are ready for trial use, but not yet for widespread adoption")
      (Present (Some (js "#3b82f6")));
    InsertRing.mk (js "Assess")
      (js "These technologies are worth exploring to understand how they can be useful")
      (Present (Some (js "#f59e0b")));
    InsertRing.mk (js "Hold")
      (js "Proceed with caution with these technologies")
      (Present (Some (js "#ef4444"))) ].

Definition seedQuadrantsAndRings : MemStorage :=
  let st := fold_left (fun st q => fst (createQuadrant st q)) seedQuadrants reset in
  fold_left (fun st r => fst (createRing st r)) seedRings st.

(* --------------------------------------------------------------------- *)
(** ** Sequences of calls *)
(* --------------------------------------------------------------------- *)

Inductive collection :=
| Technologies | Quadrants | Rings | Projects | TechnologyProjects.

Definition collection_eqb (c d : collection) : bool :=
  match c, d with
  | Technologies, Technologies
  | Quadrants, Quadrants
  | Rings, Rings
  | Projects, Projects
  | TechnologyProjects, TechnologyProjects => true
  | _, _ => false
  end.

(** The calls that write to the store. *)
Inductive call :=
| CreateTechnology (i : InsertTechnology.t)
| UpdateTechnology (id : Z) (u : PartialInsertTechnology.t)
| CreateQuadrant (i : InsertQuadrant.t)
| UpdateQuadrant (id : Z) (u : PartialInsertQuadrant.t)
| CreateRing (i : InsertRing.t)
| UpdateRing (id : Z) (u : PartialInsertRing.t)
| CreateProject (i : InsertProject.t)
| UpdateProject (id : Z) (u : PartialInsertProject.t)
| LinkTechnologyToProject (i : InsertTechnologyProject.t)
| UpdateTechnologyProject (id : Z) (u : PartialInsertTechnologyProject.t).

(** What a call hands back, as far as ids go: the id of the entity a create
    returned, or the id of the merged entity of an update (if found). *)
Inductive outcome :=
| Created (c : collection) (id : Z)
| Updated (c : collection) (id : option Z).

Definition perform (st : MemStorage) (c : call) : MemStorage * outcome :=
  match c with
  | CreateTechnology i =>
      let (st', e) := createTechnology st i in
      (st', Created Technologies (Technology.id e))
  | UpdateTechnology id u =>
      let (st', r) := updateTechnology st id u in
      (st', Updated Technologies (option_map Technology.id r))
  | CreateQuadrant i =>
      let (st', e) := createQuadrant st i in
      (st', Created Quadrants (Quadrant.id e))
  | UpdateQuadrant id u =>
      let (st', r) := updateQuadrant st id u in
      (st', Updated Quadrants (option_map Quadrant.id r))
  | CreateRing i =>
      let (st', e) := createRing st i in
      (st', Created Rings (Ring.id e))
  | UpdateRing id u =>
      let (st', r) := updateRing st id u in
      (st', Updated Rings (option_map Ring.id r))
  | CreateProject i =>
      let (st', e) := createProject st i in
      (st', Created Projects (Project.id e))
  | UpdateProject id u =>
      let (st', r) := updateProject st id u in
      (st', Updated Projects (option_map Project.id r))
  | LinkTechnologyToProject i =>
      let (st', e) := linkTechnologyToProject st i in
      (st', Created TechnologyProjects (TechnologyProject.id e))
  | UpdateTechnologyProject id u =>
      let (st', r) := updateTechnologyProject st id u in
      (st', Updated TechnologyProjects (option_map TechnologyProject.id r))
  end.

(** The calls run one after the other, each to completion. *)
Fixpoint run (st : MemStorage) (cs : list call) : MemStorage * list outcome :=
  match cs with
  | [] => (st, [])
  | c :: cs' =>
      let (st1, o) := perform st c in
      let (st2, os) := run st1 cs' in
      (st2, o :: os)
  end.

(** The ids the creates on collection [c] returned, in call order. *)
Fixpoint created_ids (c : collection) (os : list outcome) : list Z :=
  match os with
  | [] => []
  | Created d id :: os' =>
      if collection_eqb c d then id :: created_ids c os' else created_ids c os'
  | Updated _ _ :: os' => created_ids c os'
  end.

Definition creates_on (c : collection) (k : call) : bool :=
  match k with
  | CreateTechnology _ => collection_eqb c Technologies
  | CreateQuadrant _ => collection_eqb c Quadrants
  | CreateRing _ => collection_eqb c Rings
  | CreateProject _ => collection_eqb c Projects
  | LinkTechnologyToProject _ => collection_eqb c TechnologyProjects
  | _ => false
  end.

(** How many of the calls are creates on collection [c]. *)
Definition count_creates (c : collection) (cs : list call) : nat :=
  List.length (filter (creates_on c) cs).

(** [first; first + 1; ...], [n] of them. *)
Fixpoint consecutive (first : Z) (n : nat) : list Z :=
  match n with
  | O => []
  | S n' => first :: consecutive (first + 1) n'
  end.

Definition counter (c : collection) (st : MemStorage) : Z :=
  match c with
  | Technologies => techCurrentId st
  | Quadrants => quadrantCurrentId st
  | Rings => ringCurrentId st
  | Projects => projectCurrentId st
  | TechnologyProjects => techProjectCurrentId st
  end.

(** The ids under which collection [c] holds an entity. *)
Definition stored_keys (c : collection) (st : MemStorage) : list Z :=
  match c with
  | Technologies => JsMap.keys (technologies st)
  | Quadrants => JsMap.keys (quadrants st)
  | Rings => JsMap.keys (rings st)
  | Projects => JsMap.keys (projects st)
  | TechnologyProjects => JsMap.keys (technologyProjects st)
  end.

(** Every entry of a map sits under the id its entity carries. *)
Definition keyed_by (V : Type) (id : V -> Z) (m : JsMap.t V) : Prop :=
  forall k v, In (k, v) m -> id v = k.

Definition ids_are_keys (st : MemStorage) : Prop :=
  keyed_by Technology.id (technologies st) /\
  keyed_by Quadrant.id (quadrants st) /\
  keyed_by Ring.id (rings st) /\
  keyed_by Project.id (projects st) /\
  keyed_by TechnologyProject.id (technologyProjects st).

(** The shallow merge in the spec's words: a field the partial input names
    takes the new value, a field it does not name is unchanged. *)
Definition merged (A : Type) (existing : A) (update : optional A) (result : A)
  : Prop :=
  (forall v, update = Present v -> result = v) /\
  (update = Absent -> result = existing).

(** The match of a technology against a query, in the spec's words: the
    lowercased query is a substring of the lowercased name, or of the
    lowercased description, or of the lowercasing of at least one tag. *)
Definition tech_matches (toLowerCase : jsstring -> jsstring)
  (q : jsstring) (tech : Technology.t) : Prop :=
  substring_of (toLowerCase q) (toLowerCase (Technology.name tech)) \/
  substring_of (toLowerCase q) (toLowerCase (Technology.description tech)) \/
  exists tags tag,
    Technology.tags tech = Some tags /\ In tag tags /\
    substring_of (toLowerCase q) (toLowerCase tag).

(** A string made of white space only (the empty string included). *)
Definition only_whitespace (s : jsstring) : Prop :=
  Forall (fun c => JsString.isWhiteSpace c = true) s.

(** The shallow merge of a whole entity: the id stays, every other field
    is merged. *)
Definition technology_merged (existing : Technology.t)
  (u : PartialInsertTechnology.t) (updated : Technology.t) : Prop :=
  Technology.id updated = Technology.id existing /\
  merged (Technology.name existing) (PartialInsertTechnology.name u)
         (Technology.name updated) /\
  merged (Technology.description existing)
         (PartialInsertTechnology.description u)
         (Technology.description updated) /\
  merged (Technology.quadrant existing) (PartialInsertTechnology.quadrant u)
         (Technology.quadrant updated) /\
  merged (Technology.ring existing) (PartialInsertTechnology.ring u)
         (Technology.ring updated) /\
  merged (Technology.website existing) (PartialInsertTechnology.website u)
         (Technology.website updated) /\
  merged (Technology.tags existing) (PartialInsertTechnology.tags u)
         (Technology.tags updated) /\
  merged (Technology.custom_properties existing)
         (PartialInsertTechnology.custom_properties u)
         (Technology.custom_properties updated).

Definition quadrant_merged (existing : Quadrant.t)
  (u : PartialInsertQuadrant.t) (updated : Quadrant.t) : Prop :=
  Quadrant.id updated = Quadrant.id existing /\
  merged (Quadrant.name existing) (PartialInsertQuadrant.name u)
         (Quadrant.name updated) /\
  merged (Quadrant.description existing) (PartialInsertQuadrant.description u)
         (Quadrant.description updated) /\
  merged (Quadrant.color existing) (PartialInsertQuadrant.color u)
         (Quadrant.color updated).

Definition ring_merged (existing : Ring.t)
  (u : PartialInsertRing.t) (updated : Ring.t) : Prop :=
  Ring.id updated = Ring.id existing /\
  merged (Ring.name existing) (PartialInsertRing.name u)
         (Ring.name updated) /\
  merged (Ring.description existing) (PartialInsertRing.description u)
         (Ring.description updated) /\
  merged (Ring.color existing) (PartialInsertRing.color u)
         (Ring.color updated).

Definition project_merged (existing : Project.t)
  (u : PartialInsertProject.t) (updated : Project.t) : Prop :=
  Project.id updated = Project.id existing /\
  merged (Project.name existing) (PartialInsertProject.name u)
         (Project.name updated) /\
  merged (Project.description existing) (PartialInsertProject.description u)
         (Project.description updated) /\
  merged (Project.status existing) (PartialInsertProject.status u)
         (Project.status updated) /\
  merged (Project.website existing) (PartialInsertProject.website u)
         (Project.website updated) /\
  merged (Project.repository existing) (PartialInsertProject.repository u)
         (Project.repository updated) /\
  merged (Project.image existing) (PartialInsertProject.image u)
         (Project.image updated).

Definition link_merged (existing : TechnologyProject.t)
  (u : PartialInsertTechnologyProject.t) (updated : TechnologyProject.t)
  : Prop :=
  TechnologyProject.id updated = TechnologyProject.id existing /\
  merged (TechnologyProject.technology_id existing)
         (PartialInsertTechnologyProject.technology_id u)
         (TechnologyProject.technology_id updated) /\
  merged (TechnologyProject.project_id existing)
         (PartialInsertTechnologyProject.project_id u)
         (TechnologyProject.project_id updated) /\
  merged (TechnologyProject.notes existing)
         (PartialInsertTechnologyProject.notes u)
         (TechnologyProject.notes updated).

(** The partial input [{ name: x }]. *)
Definition onlyName (x : jsstring) : PartialInsertTechnology.t :=
  PartialInsertTechnology.mk (Present x) Absent Absent Absent Absent Absent
    Absent.

(** The partial input [{ website: null }]. *)
Definition nullWebsite : PartialInsertTechnology.t :=
  PartialInsertTechnology.mk Absent Absent Absent Absent (Present None) Absent
    Absent.

(** Every id a collection holds was handed out by its counter. *)
Definition keys_below_counter (st : MemStorage) : Prop :=
  forall c,
    1 <= counter c st /\
    forall k, In k (stored_keys c st) -> 1 <= k < counter c st.

(* --------------------------------------------------------------------- *)
(** ** Sample stores *)
(* --------------------------------------------------------------------- *)

Definition docker : InsertTechnology.t :=
  InsertTechnology.mk (js "Docker")
    (js "A platform for building and running applications in containers.")
    1 0 (Present (Some (js "https://www.docker.com")))
    (Present (Some [js "container"; js "devops"; js "deployment"]))
    Absent.

Definition dockerCompose : InsertTechnology.t :=
  InsertTechnology.mk (js "Docker Compose")
    (js "A tool for defining multi-container applications.")
    1 1 Absent Absent Absent.

Definition kubernetes : InsertTechnology.t :=
  InsertTechnology.mk (js "Kubernetes")
    (js "An open-source system for automating deployment and scaling.")
    2 0 Absent
    (Present (Some [js "container"; js "orchestration"; js "devops"]))
    Absent.

(** A technology whose optional fields are all given, and all falsy or
    empty. *)
Definition blankOptionals : InsertTechnology.t :=
  InsertTechnology.mk (js "Git") (js "Version control") 1 0
    (Present (Some (js ""))) (Present (Some [])) (Present (Some (js ""))).

(** Three technologies in the freshly reset store. *)
Definition threeTechnologies : MemStorage :=
  fst (run reset
         [CreateTechnology docker; CreateTechnology dockerCompose;
          CreateTechnology kubernetes]).

(** Docker Compose as [threeTechnologies] holds it. *)
Definition dockerComposeStored : Technology.t :=
  Technology.mk 2 (js "Docker Compose")
    (js "A tool for defining multi-container applications.")
    1 1 None (Some []) None.

(** One entity in each collection, each under id 1. *)
Definition oneOfEach : MemStorage :=
  fst (run reset
         [CreateTechnology docker;
          CreateQuadrant (InsertQuadrant.mk (js "Tools") (js "Tooling") Absent);
          CreateRing
            (InsertRing.mk (js "Adopt") (js "Use it")
               (Present (Some (js "#10b981"))));
          CreateProject
            (InsertProject.mk (js "VW Tech Radar")
               (js "Visualization tool for technology choices and assessment")
               (js "active") Absent Absent Absent);
          LinkTechnologyToProject
            (InsertTechnologyProject.mk 1 1
               (Present (Some (js "Used for containerization"))))]).

(* --------------------------------------------------------------------- *)
(** ** Seeding, continued *)
(* --------------------------------------------------------------------- *)

(** The technologies [initializeData] creates after the quadrants and the
    rings, in this order; none gives an optional field. *)
Definition seedTechnologies : list InsertTechnology.t :=
  [
    InsertTechnology.mk (js "Claude Sonnet")
      (js "AI assistant model from Anthropic")
      1 0 Absent Absent Absent;
    InsertTechnology.mk (js "Tuple")
      (js "Remote pair programming tool")
      1 0 Absent Absent Absent;
    InsertTechnology.mk (js "YOLO")
      (js "Real-time object detection system")
      1 0 Absent Absent Absent;
    InsertTechnology.mk (js "D2")
      (js "Declarative diagramming language")
      1 1 Absent Absent Absent;
    InsertTechnology.mk (js "metabase")
      (js "Business intelligence and analytics tool")
      1 1 Absent Absent Absent;
    InsertTechnology.mk (js "Anything LLM")
      (js "Open-source ChatGPT alternative")
      1 1 Absent Absent Absent;
    InsertTechnology.mk (js "GraphRAG")
      (js "Graph-based Retrieval Augmented Generation")
      0 0 Absent Absent Absent;
    InsertTechnology.mk (js "Small language models")
      (js "Smaller, efficient AI language models")
      0 0 Absent Absent Absent;
    InsertTechnology.mk (js "Model Distillation")
      (js "Technique to create smaller models from larger ones")
      0 0 Absent Absent Absent;
    InsertTechnology.mk (js "Prompt Engineering")
      (js "Designing effective prompts for AI models")
      0 0 Absent Absent Absent;
    InsertTechnology.mk (js "Mixed reality")
      (js "Blend of physical and digital worlds")
      0 0 Absent Absent Absent;
    InsertTechnology.mk (js "Ambient Computing")
      (js "Technology integrated into environment")
      0 0 Absent Absent Absent;
    InsertTechnology.mk (js "Explainable AI")
      (js "AI systems with understandable decisions")
      0 0 Absent Absent Absent;
    InsertTechnology.mk (js "Multimodal AI")
      (js "AI that handles multiple input/output types")
      0 0 Absent Absent Absent;
    InsertTechnology.mk (js "Shadow AI mastering")
      (js "AI mastering process")
      0 0 Absent Absent Absent;
    InsertTechnology.mk (js "Quantum computing")
      (js "Computing based on quantum mechanics")
      0 1 Absent Absent Absent;
    InsertTechnology.mk (js "Quantum Sensing")
      (js "Detecting signals using quantum properties")
      0 1 Absent Absent Absent;
    InsertTechnology.mk (js "Edge Computing")
      (js "Processing data near the source")
      0 1 Absent Absent Absent;
    InsertTechnology.mk (js "Adaptive AI")
      (js "AI that adapts to changing conditions")
      0 1 Absent Absent Absent;
    InsertTechnology.mk (js "Advanced Swarm Systems")
      (js "Decentralized, self-organized systems")
      0 1 Absent Absent Absent;
    InsertTechnology.mk (js "Wearable Technologies")
      (js "Computing devices worn on body")
      0 2 Absent Absent Absent;
    InsertTechnology.mk (js "HMO")
      (js "Health maintenance organization")
      0 2 Absent Absent Absent;
    InsertTechnology.mk (js "Digital Identity")
      (js "Electronic verification of identity")
      0 2 Absent Absent Absent;
    InsertTechnology.mk (js "5G/6G")
      (js "Mobile network technologies")
      0 2 Absent Absent Absent;
    InsertTechnology.mk (js "3D Data visualization")
      (js "Visual representation of data in 3D")
      0 2 Absent Absent Absent;
    InsertTechnology.mk (js "Crew AI")
      (js "AI framework for team collaboration")
      2 0 Absent Absent Absent;
    InsertTechnology.mk (js "Langraph")
      (js "Graph-based framework for language models")
      2 0 Absent Absent Absent;
    InsertTechnology.mk (js "Agony")
      (js "Framework for efficient data processing")
      2 0 Absent Absent Absent;
    InsertTechnology.mk (js "Langchain")
      (js "Framework for developing applications powered by language models")
      2 0 Absent Absent Absent;
    InsertTechnology.mk (js "Langsmith")
      (js "Developer platform for LLM applications")
      2 0 Absent Absent Absent;
    InsertTechnology.mk (js "Trino")
      (js "Distributed SQL query engine")
      3 0 Absent Absent Absent;
    InsertTechnology.mk (js "Gitlab CI/CD")
      (js "Continuous integration and delivery platform")
      3 0 Absent Absent Absent;
    InsertTechnology.mk (js "Deepseek R1")
      (js "AI platform for research")
      3 0 Absent Absent Absent;
    InsertTechnology.mk (js "Chain loop")
      (js "Software supply chain management platform")
      3 0 Absent Absent Absent;
    InsertTechnology.mk (js "Railway")
      (js "Application deployment platform")
      3 1 Absent Absent Absent ].

(** The store after the quadrant, ring and technology creates of
    [initializeData]. *)
Definition seedCatalog : MemStorage :=
  fold_left (fun st t => fst (createTechnology st t)) seedTechnologies
    seedQuadrantsAndRings.

(** The groups the comments of [initializeData] put the seeded
    technologies in, as quadrant name, ring name and number of
    technologies. *)
Definition seedGroups : list (jsstring * jsstring * nat) :=
  [ (js "Tools", js "Adopt", 3%nat);
    (js "Tools", js "Trial", 3%nat);
    (js "Techniques", js "Adopt", 9%nat);
    (js "Techniques", js "Trial", 5%nat);
    (js "Techniques", js "Assess", 5%nat);
    (js "Frameworks", js "Adopt", 5%nat);
    (js "Platforms", js "Adopt", 4%nat);
    (js "Platforms", js "Trial", 1%nat) ].

(* ===================================================================== *)
(** * The radar component *)
(* ===================================================================== *)

(** The state and the handlers of [RadarVisualization], the client of the
    store.  A handler reads the state of the current render and schedules
    new values with the setters; it is modelled as the function from that
    state to the state of the next render.  The drawing itself (angles,
    radii, random jitter) is floating point and is left out. *)

(** [arr[i]] for an integer index: [undefined] outside the array. *)
Definition array_at (A : Type) (arr : list A) (i : Z) : option A :=
  if i <? 0 then None else nth_error arr (Z.to_nat i).

Module Radar.

(** The [useState] cells of the component. *)
Record state := mk {
  selectedTech : option Technology.t;
  selectedQuadrant : option Z;
  searchQuery : jsstring;
  searchResults : option (list Technology.t);
  showProjectsList : bool
}.

(** The initial values given to [useState]. *)
Definition initial : state := mk None None (js "") None false.

Section Handlers.
Variable toLowerCase : jsstring -> jsstring.

(** The callback [handleSearch] filters with.  [tech.tags && ...] is
    falsy when [tags] is null. *)
Definition handleSearchFilter (searchQuery : jsstring) (tech : Technology.t)
  : bool :=
  JsString.includes (toLowerCase (Technology.name tech))
                    (toLowerCase searchQuery)
  || JsString.includes (toLowerCase (Technology.description tech))
                       (toLowerCase searchQuery)
  || match Technology.tags tech with
     | Some tags =>
         existsb (fun tag => JsString.includes (toLowerCase tag)
                               (toLowerCase searchQuery)) tags
     | None => false
     end.

(** [handleSearch], over the [technologies] of the current render (an
    array, hence truthy).  The form event it cancels and the refetch it
    starts are not part of the state. *)
Definition handleSearch (technologies : list Technology.t) (s : state)
  : state :=
  if JsString.truthy (searchQuery s)
  then mk (selectedTech s) (selectedQuadrant s) (searchQuery s)
          (Some (filter (handleSearchFilter (searchQuery s)) technologies))
          (showProjectsList s)
  else mk (selectedTech s) (selectedQuadrant s) (searchQuery s) None
          (showProjectsList s).

End Handlers.

Definition clearSearch (s : state) : state :=
  mk (selectedTech s) (selectedQuadrant s) (js "") None (showProjectsList s).


Definition toggleProjectsList (s : state) : state :=
  mk (selectedTech s) (selectedQuadrant s) (searchQuery s) (searchResults s)
     (negb (showProjectsList s)).

Definition handleQuadrantFilter (quadrantId : option Z) (s : state) : state :=
  mk (selectedTech s) quadrantId (searchQuery s) (searchResults s)
     (showProjectsList s).

(** The click handler of a dot: [setSelectedTech(tech)]. *)
Definition clickTech (tech : Technology.t) (s : state) : state :=
  mk (Some tech) (selectedQuadrant s) (searchQuery s) (searchResults s)
     (showProjectsList s).


(** [selectedTech && selectedTech.id === tech.id] *)
Definition isSelected (s : state) (tech : Technology.t) : bool :=
  match selectedTech s with
  | Some sel => Technology.id sel =? Technology.id tech
  | None => false
  end.

(** [quadrants[tech.quadrant]?.name] and [rings[tech.ring]?.name]: the
    labels shown for a technology. *)
Definition quadrantName (quadrants : list Quadrant.t) (tech : Technology.t)
  : option jsstring :=
  option_map Quadrant.name (array_at quadrants (Technology.quadrant tech)).

Definition ringName (rings : list Ring.t) (tech : Technology.t)
  : option jsstring :=
  option_map Ring.name (array_at rings (Technology.ring tech)).

End Radar.

(* --------------------------------------------------------------------- *)
(** ** Predicates used in the statements below *)
(* --------------------------------------------------------------------- *)

(** The key list [Map.set] leaves: unchanged for a key that is there, the
    key appended otherwise. *)
Definition keys_add (ks : list Z) (k : Z) : list Z :=
  if existsb (Z.eqb k) ks then ks else ks ++ [k].

(** Each collection holds exactly the ids 1 .. counter - 1, in this
    order. *)
Definition dense (st : MemStorage) : Prop :=
  forall c,
    1 <= counter c st /\
    stored_keys c st = consecutive 1 (Z.to_nat (counter c st - 1)).


(** A store that some sequence of calls builds from the reset store. *)
Definition reachable (st : MemStorage) : Prop :=
  exists ks, st = fst (run reset ks).

(* ===================================================================== *)
(** * Facts about maps *)
(* ===================================================================== *)

Section JsMapFacts.
Variable V : Type.
Implicit Types (m : JsMap.t V) (k : Z) (v : V).

Lemma get_set_same m k v : JsMap.get (JsMap.set m k v) k = Some v.
Proof.
  induction m as [|[k' v'] m IH]; simpl.
  - now rewrite Z.eqb_refl.
  - destruct (k' =? k) eqn:E; simpl.
    + now rewrite Z.eqb_refl.
    + now rewrite E.
Qed.

Lemma get_set_other m k k' v :
  k <> k' -> JsMap.get (JsMap.set m k v) k' = JsMap.get m k'.
Proof.
  intros Hne. induction m as [|[k0 v0] m IH]; simpl.
  - destruct (k =? k') eqn:E; [apply Z.eqb_eq in E; contradiction | reflexivity].
  - destruct (k0 =? k) eqn:E; simpl.
    + apply Z.eqb_eq in E. subst k0.
      destruct (k =? k') eqn:E'; [apply Z.eqb_eq in E'; contradiction | reflexivity].
    + now rewrite IH.
Qed.

Lemma get_Some_In m k v : JsMap.get m k = Some v -> In (k, v) m.
Proof.
  induction m as [|[k' v'] m IH]; simpl; [discriminate|].
  destruct (k' =? k) eqn:E.
  - apply Z.eqb_eq in E. intros [= ->]. left. now subst.
  - intros H. right. now apply IH.
Qed.

Lemma get_None_iff m k : JsMap.get m k = None <-> ~ In k (JsMap.keys m).
Proof.
  induction m as [|[k' v'] m IH]; simpl.
  - tauto.
  - destruct (k' =? k) eqn:E.
    + apply Z.eqb_eq in E. split; [discriminate | intros H; exfalso; apply H; now left].
    + apply Z.eqb_neq in E. rewrite IH. tauto.
Qed.

Lemma In_set m k v k' v' :
  In (k', v') (JsMap.set m k v) -> (k' = k /\ v' = v) \/ In (k', v') m.
Proof.
  induction m as [|[k0 v0] m IH]; simpl.
  - intros [[= <- <-]|[]]. now left.
  - destruct (k0 =? k) eqn:E; simpl.
    + intros [[= <- <-]|H]; [now left | right; now right].
    + intros [H|H]; [right; now left|].
      destruct (IH H) as [?|?]; [now left | right; now right].
Qed.

Lemma In_keys_set m k v k' :
  In k' (JsMap.keys (JsMap.set m k v)) -> k' = k \/ In k' (JsMap.keys m).
Proof.
  unfold JsMap.keys. rewrite !in_map_iff.
  intros [[k0 v0] [<- Hin]]. simpl.
  destruct (In_set _ _ _ _ _ Hin) as [[-> _]|H]; [now left | right].
  now exists (k0, v0).
Qed.

Lemma keyed_by_set (id : V -> Z) m k v :
  keyed_by id m -> id v = k -> keyed_by id (JsMap.set m k v).
Proof.
  intros Hm Hv k' v' Hin.
  destruct (In_set _ _ _ _ _ Hin) as [[-> ->]|H]; [assumption | now apply Hm].
Qed.

End JsMapFacts.

(* ===================================================================== *)
(** * Facts about strings *)
(* ===================================================================== *)

Lemma startsWith_prefix s q :
  JsString.startsWith s q = true <-> exists post, s = q ++ post.
Proof.
  revert s. induction q as [|c q IH]; intros s; simpl.
  - split; [intros _; now exists s | reflexivity].
  - destruct s as [|d s].
    + split; [discriminate | intros [post H]; discriminate].
    + rewrite andb_true_iff, Z.eqb_eq, IH. split.
      * intros [-> [post ->]]. now exists post.
      * intros [post [= -> ->]]. split; [reflexivity | now exists post].
Qed.

Lemma includes_substring s q :
  JsString.includes s q = true <-> substring_of q s.
Proof.
  unfold substring_of. induction s as [|d s IH].
  - simpl. rewrite orb_false_r, startsWith_prefix. split.
    + intros [post H]. now exists [], post.
    + intros [pre [post H]]. destruct pre; [now exists post | discriminate].
  - cbn [JsString.includes]. rewrite orb_true_iff, startsWith_prefix, IH. split.
    + intros [[post H]|[pre [post H]]].
      * now exists [], post.
      * exists (d :: pre), post. simpl. now rewrite H.
    + intros [[|e pre] [post H]].
      * left. now exists post.
      * right. injection H as _ H. now exists pre, post.
Qed.

Lemma trimStart_nil_iff s :
  JsString.trimStart s = [] <-> only_whitespace s.
Proof.
  unfold only_whitespace. induction s as [|c s IH]; simpl.
  - split; [constructor | reflexivity].
  - destruct (JsString.isWhiteSpace c) eqn:E.
    + rewrite IH. split; [now constructor | now inversion 1].
    + split; [discriminate | inversion 1; congruence].
Qed.

Lemma only_whitespace_rev s : only_whitespace s -> only_whitespace (rev s).
Proof. unfold only_whitespace. apply Forall_rev. Qed.

Lemma rev_nil_inv (A : Type) (l : list A) : rev l = [] -> l = [].
Proof.
  intros H. apply (f_equal (@rev A)) in H. now rewrite rev_involutive in H.
Qed.

Lemma trimStart_stable s :
  JsString.trimStart (JsString.trimStart s) = JsString.trimStart s.
Proof.
  induction s as [|c s IH]; simpl; [reflexivity|].
  destruct (JsString.isWhiteSpace c) eqn:E; [assumption | simpl; now rewrite E].
Qed.

(** [trim] leaves nothing exactly when there is nothing but white space. *)
Lemma trim_nil_iff s : JsString.trim s = [] <-> only_whitespace s.
Proof.
  unfold JsString.trim, JsString.trimEnd. split.
  - intros H. apply rev_nil_inv in H. apply trimStart_nil_iff in H.
    apply only_whitespace_rev in H. rewrite rev_involutive in H.
    apply trimStart_nil_iff in H. rewrite trimStart_stable in H.
    now apply trimStart_nil_iff.
  - intros H. apply trimStart_nil_iff in H. rewrite H. reflexivity.
Qed.

Lemma is_empty_true_iff s : JsString.is_empty s = true <-> s = [].
Proof. destruct s; simpl; split; congruence. Qed.

(* ===================================================================== *)
(** * Create, then get *)
(* ===================================================================== *)

Lemma getTechnology_createTechnology st i :
  getTechnology (fst (createTechnology st i))
    (Technology.id (snd (createTechnology st i)))
  = Some (snd (createTechnology st i)).
Proof. unfold createTechnology, getTechnology. cbn. apply get_set_same. Qed.

Lemma getQuadrant_createQuadrant st i :
  getQuadrant (fst (createQuadrant st i))
    (Quadrant.id (snd (createQuadrant st i)))
  = Some (snd (createQuadrant st i)).
Proof. unfold createQuadrant, getQuadrant. cbn. apply get_set_same. Qed.

Lemma getRing_createRing st i :
  getRing (fst (createRing st i)) (Ring.id (snd (createRing st i)))
  = Some (snd (createRing st i)).
Proof. unfold createRing, getRing. cbn. apply get_set_same. Qed.

Lemma getProject_createProject st i :
  getProject (fst (createProject st i))
    (Project.id (snd (createProject st i)))
  = Some (snd (createProject st i)).
Proof. unfold createProject, getProject. cbn. apply get_set_same. Qed.

Lemma getTechnologyProject_link st i :
  getTechnologyProject (fst (linkTechnologyToProject st i))
    (TechnologyProject.id (snd (linkTechnologyToProject st i)))
  = Some (snd (linkTechnologyToProject st i)).
Proof.
  unfold linkTechnologyToProject, getTechnologyProject. cbn.
  apply get_set_same.
Qed.

(** C1: in each of the five collections, get with the id of the entity
    that create returned, called on the store create left behind, returns
    that entity. *)
Theorem get_after_create :
  (forall st i,
     let (st', e) := createTechnology st i in
     getTechnology st' (Technology.id e) = Some e) /\
  (forall st i,
     let (st', e) := createQuadrant st i in
     getQuadrant st' (Quadrant.id e) = Some e) /\
  (forall st i,
     let (st', e) := createRing st i in
     getRing st' (Ring.id e) = Some e) /\
  (forall st i,
     let (st', e) := createProject st i in
     getProject st' (Project.id e) = Some e) /\
  (forall st i,
     let (st', e) := linkTechnologyToProject st i in
     getTechnologyProject st' (TechnologyProject.id e) = Some e).
Proof.
  repeat split; intros st i.
  - apply (getTechnology_createTechnology st i).
  - apply (getQuadrant_createQuadrant st i).
  - apply (getRing_createRing st i).
  - apply (getProject_createProject st i).
  - apply (getTechnologyProject_link st i).
Qed.

(** C7: in the store seeded with the quadrants Techniques, Tools,
    Frameworks, Platforms and the rings Adopt, Trial, Assess, Hold, creating
    the technology Kubernetes with quadrant 2, ring 0 and no optional field
    and then getting it by the returned id yields quadrant 2, ring 0, tags
    [[]], website null and custom_properties null.  (The description is a
    required field of the input type; the scenario holds for any.) *)
Theorem kubernetes_scenario :
  List.map Quadrant.name (getQuadrants seedQuadrantsAndRings)
    = [js "Techniques"; js "Tools"; js "Frameworks"; js "Platforms"] /\
  List.map Ring.name (getRings seedQuadrantsAndRings)
    = [js "Adopt"; js "Trial"; js "Assess"; js "Hold"] /\
  forall description,
    let input :=
      InsertTechnology.mk (js "Kubernetes") description 2 0
        Absent Absent Absent in
    let (st', created) := createTechnology seedQuadrantsAndRings input in
    exists e,
      getTechnology st' (Technology.id created) = Some e /\
      Technology.quadrant e = 2 /\
      Technology.ring e = 0 /\
      Technology.tags e = Some [] /\
      Technology.website e = None /\
      Technology.custom_properties e = None.
Proof.
  split; [reflexivity|]. split; [reflexivity|].
  intros description. cbv zeta.
  pose proof (getTechnology_createTechnology seedQuadrantsAndRings
    (InsertTechnology.mk (js "Kubernetes") description 2 0 Absent Absent Absent))
    as G.
  destruct (createTechnology seedQuadrantsAndRings _) as [st' created] eqn:E.
  exists created. split; [exact G|].
  unfold createTechnology in E. injection E as _ <-. cbn. repeat split.
Qed.

(* ===================================================================== *)
(** * Defaults of [createTechnology] *)
(* ===================================================================== *)

(** C10: [createTechnology] turns a website given as the empty string into
    null, and likewise custom_properties, in the entity it returns and
    stores; a tags array given empty stays the empty array. *)
Theorem createTechnology_falsy_optionals st i :
  let (st', created) := createTechnology st i in
  getTechnology st' (Technology.id created) = Some created /\
  (InsertTechnology.website i = Present (Some (js "")) ->
   Technology.website created = None) /\
  (InsertTechnology.custom_properties i = Present (Some (js "")) ->
   Technology.custom_properties created = None) /\
  (InsertTechnology.tags i = Present (Some []) ->
   Technology.tags created = Some []).
Proof.
  pose proof (getTechnology_createTechnology st i) as G.
  destruct (createTechnology st i) as [st' created] eqn:E.
  split; [exact G|].
  unfold createTechnology in E. injection E as _ <-. cbn.
  repeat split; intros ->; reflexivity.
Qed.

Lemma createTechnology_falsy_optionals_witness :
  let created := snd (createTechnology reset blankOptionals) in
  InsertTechnology.website blankOptionals = Present (Some (js "")) /\
  InsertTechnology.custom_properties blankOptionals = Present (Some (js "")) /\
  InsertTechnology.tags blankOptionals = Present (Some []) /\
  Technology.website created = None /\
  Technology.custom_properties created = None /\
  Technology.tags created = Some [].
Proof.
  pose proof (createTechnology_falsy_optionals reset blankOptionals) as H.
  destruct (createTechnology reset blankOptionals) as [st' created] eqn:E.
  destruct H as (_ & Hw & Hc & Ht). cbn.
  repeat split; [apply Hw | apply Hc | apply Ht]; reflexivity.
Defined.

(* ===================================================================== *)
(** * Search *)
(* ===================================================================== *)

Section SearchFacts.
Variable toLowerCase : jsstring -> jsstring.

Lemma searchFilter_matches q tech :
  searchFilter toLowerCase (toLowerCase q) tech = true
  <-> tech_matches toLowerCase q tech.
Proof.
  unfold searchFilter, tech_matches.
  rewrite !orb_true_iff, !includes_substring.
  destruct (Technology.tags tech) as [tags|].
  - rewrite existsb_exists. split.
    + intros [[H|H]|[tag [Hin H]]]; [now left | right; now left |].
      right; right. exists tags, tag. rewrite <- includes_substring. auto.
    + intros [H|[H|(tags' & tag & [= <-] & Hin & H)]];
        [left; now left | left; now right | right].
      exists tag. now rewrite includes_substring.
  - split.
    + intros [[H|H]|H]; [now left | right; now left | discriminate].
    + intros [H|[H|(tags' & tag & Heq & _)]];
        [left; now left | left; now right | discriminate].
Qed.

Lemma searchTechnologies_blank st q :
  only_whitespace q -> searchTechnologies toLowerCase st q = getTechnologies st.
Proof.
  intros H. unfold searchTechnologies.
  apply trim_nil_iff in H. rewrite H. now rewrite orb_true_r.
Qed.

Lemma searchTechnologies_filter st q :
  ~ only_whitespace q ->
  searchTechnologies toLowerCase st q
  = filter (searchFilter toLowerCase (toLowerCase q)) (getTechnologies st).
Proof.
  intros H. unfold searchTechnologies.
  destruct (JsString.is_empty q) eqn:E1.
  - apply is_empty_true_iff in E1. subst q. exfalso. apply H. constructor.
  - destruct (JsString.is_empty (JsString.trim q)) eqn:E2; [|reflexivity].
    apply is_empty_true_iff, trim_nil_iff in E2. contradiction.
Qed.

End SearchFacts.

(** C3: for every store, the search for the empty string and the search
    for a string of white space only both return the full technology list,
    element for element in the order of [getTechnologies]. *)
Theorem search_blank_returns_all toLowerCase st :
  searchTechnologies toLowerCase st (js "") = getTechnologies st /\
  forall q, only_whitespace q ->
    searchTechnologies toLowerCase st q = getTechnologies st.
Proof.
  split.
  - reflexivity.
  - intros q H. now apply searchTechnologies_blank.
Qed.

Lemma search_blank_returns_all_witness :
  only_whitespace (js "   ") /\
  searchTechnologies JsString.ascii_toLowerCase threeTechnologies (js "   ")
  = getTechnologies threeTechnologies.
Proof.
  assert (W : only_whitespace (js "   ")) by (repeat constructor).
  split; [exact W|].
  exact (proj2 (search_blank_returns_all JsString.ascii_toLowerCase
                  threeTechnologies) (js "   ") W).
Defined.

(** C2: for a query that is neither empty nor white space only, a
    technology is in the result of the search exactly when it is in the
    store and the lowercased query is a substring of its lowercased name,
    or of its lowercased description, or of the lowercasing of one of its
    tags. *)
Theorem search_returns_matches toLowerCase st q tech :
  q <> js "" -> ~ only_whitespace q ->
  (In tech (searchTechnologies toLowerCase st q) <->
   In tech (getTechnologies st) /\ tech_matches toLowerCase q tech).
Proof.
  intros _ Hws. rewrite searchTechnologies_filter by assumption.
  rewrite filter_In. now rewrite searchFilter_matches.
Qed.

(** The search for "docker" over Docker, Docker Compose and Kubernetes
    returns the first two. *)
Example search_docker :
  List.map Technology.name
    (searchTechnologies JsString.ascii_toLowerCase threeTechnologies
       (js "docker"))
  = [js "Docker"; js "Docker Compose"].
Proof. vm_compute. reflexivity. Qed.

Lemma search_returns_matches_witness :
  js "docker" <> js "" /\ ~ only_whitespace (js "docker") /\
  In dockerComposeStored
     (searchTechnologies JsString.ascii_toLowerCase threeTechnologies
        (js "docker")).
Proof.
  assert (N : js "docker" <> js "") by discriminate.
  assert (W : ~ only_whitespace (js "docker"))
    by (intros H; inversion H; discriminate).
  split; [exact N|]. split; [exact W|].
  apply (proj2 (search_returns_matches JsString.ascii_toLowerCase
                  threeTechnologies dockerComposeStored N W)).
  split.
  - right. left. reflexivity.
  - left. exists (js ""), (js " compose"). reflexivity.
Defined.

(* ===================================================================== *)
(** * Update *)
(* ===================================================================== *)

Lemma merged_spread (A : Type) (existing : A) (u : optional A) :
  merged existing u (spread existing u).
Proof.
  destruct u as [|v]; split; simpl; congruence.
Qed.

Create HintDb merge.
#[local] Hint Resolve merged_spread : merge.

Ltac split_conjuncts :=
  repeat match goal with |- _ /\ _ => split end.

Lemma updateTechnology_found st id u existing :
  getTechnology st id = Some existing ->
  exists updated,
    snd (updateTechnology st id u) = Some updated /\
    getTechnology (fst (updateTechnology st id u)) id = Some updated /\
    technology_merged existing u updated.
Proof.
  unfold getTechnology, updateTechnology. intros ->. cbn.
  eexists. split; [reflexivity|]. split; [apply get_set_same|].
  unfold technology_merged; cbn. split_conjuncts; auto with merge.
Qed.

Lemma updateQuadrant_found st id u existing :
  getQuadrant st id = Some existing ->
  exists updated,
    snd (updateQuadrant st id u) = Some updated /\
    getQuadrant (fst (updateQuadrant st id u)) id = Some updated /\
    quadrant_merged existing u updated.
Proof.
  unfold getQuadrant, updateQuadrant. intros ->. cbn.
  eexists. split; [reflexivity|]. split; [apply get_set_same|].
  unfold quadrant_merged; cbn. split_conjuncts; auto with merge.
Qed.

Lemma updateRing_found st id u existing :
  getRing st id = Some existing ->
  exists updated,
    snd (updateRing st id u) = Some updated /\
    getRing (fst (updateRing st id u)) id = Some updated /\
    ring_merged existing u updated.
Proof.
  unfold getRing, updateRing. intros ->. cbn.
  eexists. split; [reflexivity|]. split; [apply get_set_same|].
  unfold ring_merged; cbn. split_conjuncts; auto with merge.
Qed.

Lemma updateProject_found st id u existing :
  getProject st id = Some existing ->
  exists updated,
    snd (updateProject st id u) = Some updated /\
    getProject (fst (updateProject st id u)) id = Some updated /\
    project_merged existing u updated.
Proof.
  unfold getProject, updateProject. intros ->. cbn.
  eexists. split; [reflexivity|]. split; [apply get_set_same|].
  unfold project_merged; cbn. split_conjuncts; auto with merge.
Qed.

Lemma updateTechnologyProject_found st id u existing :
  getTechnologyProject st id = Some existing ->
  exists updated,
    snd (updateTechnologyProject st id u) = Some updated /\
    getTechnologyProject (fst (updateTechnologyProject st id u)) id
      = Some updated /\
    link_merged existing u updated.
Proof.
  unfold getTechnologyProject, updateTechnologyProject. intros ->. cbn.
  eexists. split; [reflexivity|]. split; [apply get_set_same|].
  unfold link_merged; cbn. split_conjuncts; auto with merge.
Qed.

Lemma updateTechnology_onlyName st id x existing :
  getTechnology st id = Some existing ->
  snd (updateTechnology st id (onlyName x))
  = Some (Technology.mk (Technology.id existing) x
            (Technology.description existing) (Technology.quadrant existing)
            (Technology.ring existing) (Technology.website existing)
            (Technology.tags existing)
            (Technology.custom_properties existing)).
Proof.
  unfold getTechnology, updateTechnology. intros ->. reflexivity.
Qed.

(** C4: in each collection, update on an id that exists returns and
    stores the shallow merge: every field the partial input names (a field
    set to null included) has the new value, every other field is the
    existing entity's; with the partial input [{ name: x }] only the name
    changes. *)
Theorem update_shallow_merge st id :
  (forall u existing, getTechnology st id = Some existing ->
     exists updated,
       snd (updateTechnology st id u) = Some updated /\
       getTechnology (fst (updateTechnology st id u)) id = Some updated /\
       technology_merged existing u updated) /\
  (forall u existing, getQuadrant st id = Some existing ->
     exists updated,
       snd (updateQuadrant st id u) = Some updated /\
       getQuadrant (fst (updateQuadrant st id u)) id = Some updated /\
       quadrant_merged existing u updated) /\
  (forall u existing, getRing st id = Some existing ->
     exists updated,
       snd (updateRing st id u) = Some updated /\
       getRing (fst (updateRing st id u)) id = Some updated /\
       ring_merged existing u updated) /\
  (forall u existing, getProject st id = Some existing ->
     exists updated,
       snd (updateProject st id u) = Some updated /\
       getProject (fst (updateProject st id u)) id = Some updated /\
       project_merged existing u updated) /\
  (forall u existing, getTechnologyProject st id = Some existing ->
     exists updated,
       snd (updateTechnologyProject st id u) = Some updated /\
       getTechnologyProject (fst (updateTechnologyProject st id u)) id
         = Some updated /\
       link_merged existing u updated) /\
  (forall x existing, getTechnology st id = Some existing ->
     snd (updateTechnology st id (onlyName x))
     = Some (Technology.mk (Technology.id existing) x
               (Technology.description existing)
               (Technology.quadrant existing) (Technology.ring existing)
               (Technology.website existing) (Technology.tags existing)
               (Technology.custom_properties existing))).
Proof.
  split_conjuncts; intros u existing H.
  - now apply updateTechnology_found.
  - now apply updateQuadrant_found.
  - now apply updateRing_found.
  - now apply updateProject_found.
  - now apply updateTechnologyProject_found.
  - now apply updateTechnology_onlyName.
Qed.

Lemma update_shallow_merge_witness :
  (exists existing updated,
     getTechnology oneOfEach 1 = Some existing /\
     snd (updateTechnology oneOfEach 1 nullWebsite) = Some updated /\
     Technology.website existing = Some (js "https://www.docker.com") /\
     Technology.website updated = None /\
     Technology.name updated = Technology.name existing) /\
  (exists existing updated,
     getQuadrant oneOfEach 1 = Some existing /\
     snd (updateQuadrant oneOfEach 1 PartialInsertQuadrant.none)
       = Some updated /\
     Quadrant.name updated = Quadrant.name existing) /\
  (exists existing updated,
     getRing oneOfEach 1 = Some existing /\
     snd (updateRing oneOfEach 1 PartialInsertRing.none) = Some updated /\
     Ring.color updated = Ring.color existing) /\
  (exists existing updated,
     getProject oneOfEach 1 = Some existing /\
     snd (updateProject oneOfEach 1 PartialInsertProject.none)
       = Some updated /\
     Project.status updated = Project.status existing) /\
  (exists existing updated,
     getTechnologyProject oneOfEach 1 = Some existing /\
     snd (updateTechnologyProject oneOfEach 1
            PartialInsertTechnologyProject.none) = Some updated /\
     TechnologyProject.notes updated = TechnologyProject.notes existing) /\
  (exists existing updated,
     getTechnology oneOfEach 1 = Some existing /\
     snd (updateTechnology oneOfEach 1 (onlyName (js "X"))) = Some updated /\
     Technology.name updated = js "X" /\
     Technology.tags updated = Technology.tags existing).
Proof.
  destruct (update_shallow_merge oneOfEach 1) as (HT & HQ & HR & HP & HL & HN).
  split_conjuncts.
  - destruct (HT nullWebsite _ eq_refl) as (updated & Hr & _ & Hm).
    eexists; exists updated. split; [reflexivity|]. split; [exact Hr|].
    split; [reflexivity|].
    destruct Hm as (_ & Hname & _ & _ & _ & Hweb & _).
    split; [exact (proj1 Hweb None eq_refl) | exact (proj2 Hname eq_refl)].
  - destruct (HQ PartialInsertQuadrant.none _ eq_refl) as (updated & Hr & _ & Hm).
    eexists; exists updated. split; [reflexivity|]. split; [exact Hr|].
    destruct Hm as (_ & Hname & _). exact (proj2 Hname eq_refl).
  - destruct (HR PartialInsertRing.none _ eq_refl) as (updated & Hr & _ & Hm).
    eexists; exists updated. split; [reflexivity|]. split; [exact Hr|].
    destruct Hm as (_ & _ & _ & Hc). exact (proj2 Hc eq_refl).
  - destruct (HP PartialInsertProject.none _ eq_refl) as (updated & Hr & _ & Hm).
    eexists; exists updated. split; [reflexivity|]. split; [exact Hr|].
    destruct Hm as (_ & _ & _ & Hs & _). exact (proj2 Hs eq_refl).
  - destruct (HL PartialInsertTechnologyProject.none _ eq_refl)
      as (updated & Hr & _ & Hm).
    eexists; exists updated. split; [reflexivity|]. split; [exact Hr|].
    destruct Hm as (_ & _ & _ & Hn). exact (proj2 Hn eq_refl).
  - pose proof (HN (js "X") _ eq_refl) as Hr.
    eexists; eexists. split; [reflexivity|]. split; [exact Hr|].
    split; reflexivity.
Defined.

(** C5: in each collection, update on an id the collection does not
    hold returns not-found and hands back the store as it was: no entity
    added, removed or changed, no counter advanced. *)
Theorem update_missing_id st id :
  (forall u, ~ In id (stored_keys Technologies st) ->
     updateTechnology st id u = (st, None)) /\
  (forall u, ~ In id (stored_keys Quadrants st) ->
     updateQuadrant st id u = (st, None)) /\
  (forall u, ~ In id (stored_keys Rings st) ->
     updateRing st id u = (st, None)) /\
  (forall u, ~ In id (stored_keys Projects st) ->
     updateProject st id u = (st, None)) /\
  (forall u, ~ In id (stored_keys TechnologyProjects st) ->
     updateTechnologyProject st id u = (st, None)).
Proof.
  split_conjuncts; intros u H; apply get_None_iff in H.
  - unfold updateTechnology. now rewrite H.
  - unfold updateQuadrant. now rewrite H.
  - unfold updateRing. now rewrite H.
  - unfold updateProject. now rewrite H.
  - unfold updateTechnologyProject. now rewrite H.
Qed.

Lemma update_missing_id_witness :
  (~ In 2 (stored_keys Technologies oneOfEach) /\
   updateTechnology oneOfEach 2 (onlyName (js "X")) = (oneOfEach, None)) /\
  (~ In (-1) (stored_keys Quadrants oneOfEach) /\
   updateQuadrant oneOfEach (-1) PartialInsertQuadrant.none
   = (oneOfEach, None)) /\
  (~ In 0 (stored_keys Rings oneOfEach) /\
   updateRing oneOfEach 0 PartialInsertRing.none = (oneOfEach, None)) /\
  (~ In 2 (stored_keys Projects oneOfEach) /\
   updateProject oneOfEach 2 PartialInsertProject.none = (oneOfEach, None)) /\
  (~ In 7 (stored_keys TechnologyProjects oneOfEach) /\
   updateTechnologyProject oneOfEach 7 PartialInsertTechnologyProject.none
   = (oneOfEach, None)).
Proof.
  assert (N : forall k, k <> 1 -> ~ In k [1])
    by (intros k Hk [H|[]]; congruence).
  split_conjuncts; try (apply N; discriminate).
  - apply (proj1 (update_missing_id oneOfEach 2)). apply N. discriminate.
  - apply (proj1 (proj2 (update_missing_id oneOfEach (-1)))).
    apply N. discriminate.
  - apply (proj1 (proj2 (proj2 (update_missing_id oneOfEach 0)))).
    apply N. discriminate.
  - apply (proj1 (proj2 (proj2 (proj2 (update_missing_id oneOfEach 2))))).
    apply N. discriminate.
  - apply (proj2 (proj2 (proj2 (proj2 (update_missing_id oneOfEach 7))))).
    apply N. discriminate.
Defined.

(* ===================================================================== *)
(** * Get *)
(* ===================================================================== *)

Lemma get_found_or_not (V : Type) (m : JsMap.t V) id :
  match JsMap.get m id with
  | Some e => In (id, e) m
  | None => ~ In id (JsMap.keys m)
  end.
Proof.
  destruct (JsMap.get m id) eqn:E.
  - now apply get_Some_In.
  - now apply get_None_iff.
Qed.

(** C8: get is a total function of the id, negative ids included: its
    result is the entity stored under the id, or the absence value, and it
    is the absence value exactly for the ids the collection does not
    hold. *)
Theorem get_entity_or_absent st (id : Z) :
  match getTechnology st id with
  | Some e => In (id, e) (technologies st)
  | None => ~ In id (stored_keys Technologies st)
  end /\
  match getQuadrant st id with
  | Some e => In (id, e) (quadrants st)
  | None => ~ In id (stored_keys Quadrants st)
  end /\
  match getRing st id with
  | Some e => In (id, e) (rings st)
  | None => ~ In id (stored_keys Rings st)
  end /\
  match getProject st id with
  | Some e => In (id, e) (projects st)
  | None => ~ In id (stored_keys Projects st)
  end /\
  match getTechnologyProject st id with
  | Some e => In (id, e) (technologyProjects st)
  | None => ~ In id (stored_keys TechnologyProjects st)
  end.
Proof.
  split_conjuncts; apply get_found_or_not.
Qed.

Example get_negative_id :
  getTechnology threeTechnologies (-1) = None /\
  getQuadrant seedQuadrantsAndRings (-3) = None /\
  getQuadrant seedQuadrantsAndRings 5 = None.
Proof. repeat split. Qed.

(* ===================================================================== *)
(** * Id assignment *)
(* ===================================================================== *)

Lemma collection_eqb_eq c d : collection_eqb c d = true <-> c = d.
Proof. destruct c, d; simpl; split; congruence. Qed.

Lemma collection_eqb_refl c : collection_eqb c c = true.
Proof. now destruct c. Qed.

(** A create on [c] hands out the counter of [c] and advances it by one;
    any other call leaves the counter of [c] alone and creates nothing
    in [c]. *)
Lemma perform_counter st k c :
  if creates_on c k
  then snd (perform st k) = Created c (counter c st) /\
       counter c (fst (perform st k)) = counter c st + 1
  else created_ids c [snd (perform st k)] = [] /\
       counter c (fst (perform st k)) = counter c st.
Proof.
  destruct k; cbn [perform creates_on];
    try (destruct (collection_eqb c _) eqn:E;
         [apply collection_eqb_eq in E; subst c; split; reflexivity
         | cbn; rewrite E; split; [reflexivity | destruct c; try reflexivity;
                                    discriminate E]]).
  - unfold updateTechnology.
    destruct (JsMap.get (technologies st) id); split; destruct c; reflexivity.
  - unfold updateQuadrant.
    destruct (JsMap.get (quadrants st) id); split; destruct c; reflexivity.
  - unfold updateRing.
    destruct (JsMap.get (rings st) id); split; destruct c; reflexivity.
  - unfold updateProject.
    destruct (JsMap.get (projects st) id); split; destruct c; reflexivity.
  - unfold updateTechnologyProject.
    destruct (JsMap.get (technologyProjects st) id); split; destruct c;
      reflexivity.
Qed.

Lemma run_cons st k ks :
  run st (k :: ks)
  = (fst (run (fst (perform st k)) ks),
     snd (perform st k) :: snd (run (fst (perform st k)) ks)).
Proof.
  simpl. destruct (perform st k) as [st1 o]. simpl.
  now destruct (run st1 ks).
Qed.

Lemma created_ids_cons c o os :
  created_ids c (o :: os) = created_ids c [o] ++ created_ids c os.
Proof.
  destruct o as [d id|d id]; simpl; [|reflexivity].
  now destruct (collection_eqb c d).
Qed.

(** From any store: the creates on [c] get the ids counter, counter + 1,
    ..., whatever calls on other collections and updates come between. *)
Lemma created_ids_run c ks : forall st,
  created_ids c (snd (run st ks))
    = consecutive (counter c st) (count_creates c ks) /\
  counter c (fst (run st ks))
    = counter c st + Z.of_nat (count_creates c ks).
Proof.
  unfold count_creates.
  induction ks as [|k ks IH]; intros st.
  - simpl. split; [reflexivity | lia].
  - rewrite run_cons. cbn [fst snd filter].
    rewrite created_ids_cons.
    destruct (IH (fst (perform st k))) as [IH1 IH2]. rewrite IH1, IH2.
    pose proof (perform_counter st k c) as P.
    destruct (creates_on c k).
    + destruct P as [-> ->]. cbn [created_ids List.length consecutive].
      rewrite collection_eqb_refl. simpl app. split; [reflexivity | lia].
    + destruct P as [-> ->]. split; reflexivity.
Qed.

Lemma consecutive_lower first n :
  Forall (fun id => first <= id) (consecutive first n).
Proof.
  revert first. induction n as [|n IH]; intros first; simpl; constructor.
  - lia.
  - eapply Forall_impl; [|apply IH]. simpl. intros; lia.
Qed.

Lemma consecutive_increasing first n :
  StronglySorted Z.lt (consecutive first n).
Proof.
  revert first. induction n as [|n IH]; intros first; simpl; constructor.
  - apply IH.
  - eapply Forall_impl; [|apply consecutive_lower]. simpl. intros; lia.
Qed.

Lemma StronglySorted_lt_NoDup l : StronglySorted Z.lt l -> NoDup l.
Proof.
  induction 1 as [|a l Hs IH Hall]; constructor; [|assumption].
  intros Hin. rewrite Forall_forall in Hall. specialize (Hall a Hin). lia.
Qed.

(** C6: starting from the reset store, whatever sequence of calls is
    made, the creates on a collection return the ids 1, 2, 3, ... in call
    order, independently of the calls on the other collections; the ids are
    strictly increasing and none is handed out twice. *)
Theorem created_ids_from_one c ks :
  created_ids c (snd (run reset ks)) = consecutive 1 (count_creates c ks) /\
  StronglySorted Z.lt (created_ids c (snd (run reset ks))) /\
  NoDup (created_ids c (snd (run reset ks))).
Proof.
  destruct (created_ids_run c ks reset) as [H _].
  assert (C : counter c reset = 1) by now destruct c.
  rewrite C in H. rewrite H.
  split; [reflexivity|]. split.
  - apply consecutive_increasing.
  - apply StronglySorted_lt_NoDup, consecutive_increasing.
Qed.

Example three_creates_interleaved :
  snd (run reset
         [CreateTechnology docker;
          CreateQuadrant (InsertQuadrant.mk (js "Tools") (js "Tooling") Absent);
          CreateTechnology dockerCompose;
          UpdateTechnology 1 (onlyName (js "X"));
          CreateTechnology kubernetes])
  = [Created Technologies 1; Created Quadrants 1; Created Technologies 2;
     Updated Technologies (Some 1); Created Technologies 3].
Proof. reflexivity. Qed.

(* ===================================================================== *)
(** * Ids and keys *)
(* ===================================================================== *)

Lemma ids_are_keys_reset : ids_are_keys reset.
Proof. repeat split; intros k v []. Qed.

Lemma ids_are_keys_perform st k :
  ids_are_keys st -> ids_are_keys (fst (perform st k)).
Proof.
  intros (Ht & Hq & Hr & Hp & Hl). unfold ids_are_keys.
  destruct k; cbn [perform].
  - unfold createTechnology. cbn. split_conjuncts; try assumption.
    now apply keyed_by_set.
  - unfold updateTechnology.
    destruct (JsMap.get (technologies st) id) eqn:E; cbn;
      split_conjuncts; try assumption.
    apply keyed_by_set; [assumption|]. cbn. now apply Ht, get_Some_In.
  - unfold createQuadrant. cbn. split_conjuncts; try assumption.
    now apply keyed_by_set.
  - unfold updateQuadrant.
    destruct (JsMap.get (quadrants st) id) eqn:E; cbn;
      split_conjuncts; try assumption.
    apply keyed_by_set; [assumption|]. cbn. now apply Hq, get_Some_In.
  - unfold createRing. cbn. split_conjuncts; try assumption.
    now apply keyed_by_set.
  - unfold updateRing.
    destruct (JsMap.get (rings st) id) eqn:E; cbn;
      split_conjuncts; try assumption.
    apply keyed_by_set; [assumption|]. cbn. now apply Hr, get_Some_In.
  - unfold createProject. cbn. split_conjuncts; try assumption.
    now apply keyed_by_set.
  - unfold updateProject.
    destruct (JsMap.get (projects st) id) eqn:E; cbn;
      split_conjuncts; try assumption.
    apply keyed_by_set; [assumption|]. cbn. now apply Hp, get_Some_In.
  - unfold linkTechnologyToProject. cbn. split_conjuncts; try assumption.
    now apply keyed_by_set.
  - unfold updateTechnologyProject.
    destruct (JsMap.get (technologyProjects st) id) eqn:E; cbn;
      split_conjuncts; try assumption.
    apply keyed_by_set; [assumption|]. cbn. now apply Hl, get_Some_In.
Qed.

Lemma ids_are_keys_run ks : forall st,
  ids_are_keys st -> ids_are_keys (fst (run st ks)).
Proof.
  induction ks as [|k ks IH]; intros st H; [exact H|].
  rewrite run_cons. cbn [fst]. now apply IH, ids_are_keys_perform.
Qed.

(** C9: in every store reached from the reset store by create and update
    calls, each entity of each collection is stored under its own id; and
    the entity an update returns carries the id of the entity it merged
    onto. *)
Theorem ids_are_keys_always :
  (forall ks, ids_are_keys (fst (run reset ks))) /\
  (forall st id u existing, getTechnology st id = Some existing ->
     option_map Technology.id (snd (updateTechnology st id u))
     = Some (Technology.id existing)) /\
  (forall st id u existing, getQuadrant st id = Some existing ->
     option_map Quadrant.id (snd (updateQuadrant st id u))
     = Some (Quadrant.id existing)) /\
  (forall st id u existing, getRing st id = Some existing ->
     option_map Ring.id (snd (updateRing st id u))
     = Some (Ring.id existing)) /\
  (forall st id u existing, getProject st id = Some existing ->
     option_map Project.id (snd (updateProject st id u))
     = Some (Project.id existing)) /\
  (forall st id u existing, getTechnologyProject st id = Some existing ->
     option_map TechnologyProject.id (snd (updateTechnologyProject st id u))
     = Some (TechnologyProject.id existing)).
Proof.
  split; [intros ks; apply ids_are_keys_run, ids_are_keys_reset|].
  split_conjuncts; intros st id u existing H.
  - unfold getTechnology in H. unfold updateTechnology. now rewrite H.
  - unfold getQuadrant in H. unfold updateQuadrant. now rewrite H.
  - unfold getRing in H. unfold updateRing. now rewrite H.
  - unfold getProject in H. unfold updateProject. now rewrite H.
  - unfold getTechnologyProject in H. unfold updateTechnologyProject.
    now rewrite H.
Qed.

Lemma ids_are_keys_always_witness :
  ids_are_keys oneOfEach /\
  (getTechnology oneOfEach 1 = Some (snd (createTechnology reset docker)) /\
   option_map Technology.id
     (snd (updateTechnology oneOfEach 1 (onlyName (js "X")))) = Some 1) /\
  (exists existing,
     getQuadrant oneOfEach 1 = Some existing /\
     option_map Quadrant.id
       (snd (updateQuadrant oneOfEach 1 PartialInsertQuadrant.none))
     = Some (Quadrant.id existing)) /\
  (exists existing,
     getRing oneOfEach 1 = Some existing /\
     option_map Ring.id (snd (updateRing oneOfEach 1 PartialInsertRing.none))
     = Some (Ring.id existing)) /\
  (exists existing,
     getProject oneOfEach 1 = Some existing /\
     option_map Project.id
       (snd (updateProject oneOfEach 1 PartialInsertProject.none))
     = Some (Project.id existing)) /\
  (exists existing,
     getTechnologyProject oneOfEach 1 = Some existing /\
     option_map TechnologyProject.id
       (snd (updateTechnologyProject oneOfEach 1
               PartialInsertTechnologyProject.none))
     = Some (TechnologyProject.id existing)).
Proof.
  destruct ids_are_keys_always as (HI & HT & HQ & HR & HP & HL).
  split_conjuncts.
  - apply HI.
  - reflexivity.
  - exact (HT oneOfEach 1 (onlyName (js "X")) _ eq_refl).
  - eexists. split; [reflexivity|].
    exact (HQ oneOfEach 1 PartialInsertQuadrant.none _ eq_refl).
  - eexists. split; [reflexivity|].
    exact (HR oneOfEach 1 PartialInsertRing.none _ eq_refl).
  - eexists. split; [reflexivity|].
    exact (HP oneOfEach 1 PartialInsertProject.none _ eq_refl).
  - eexists. split; [reflexivity|].
    exact (HL oneOfEach 1 PartialInsertTechnologyProject.none _ eq_refl).
Defined.

(* ===================================================================== *)
(** * Stored ids lie below the counters *)
(* ===================================================================== *)

Lemma get_Some_key (V : Type) (m : JsMap.t V) k v :
  JsMap.get m k = Some v -> In k (JsMap.keys m).
Proof.
  intros H. apply get_Some_In in H. apply (in_map fst) in H. exact H.
Qed.

(** The ids a call adds to a collection: none, except the counter's value
    on a create. *)
Lemma perform_keys st k c id :
  In id (stored_keys c (fst (perform st k))) ->
  In id (stored_keys c st) \/ (creates_on c k = true /\ id = counter c st).
Proof.
  destruct k as [i|k u|i|k u|i|k u|i|k u|i|k u]; cbn [perform].
  - unfold createTechnology; destruct c; cbn; intros H; try (now left).
    apply In_keys_set in H. destruct H as [->|H]; [right; now split | now left].
  - unfold updateTechnology.
    destruct (JsMap.get (technologies st) k) eqn:E; destruct c; cbn;
      intros H; try (now left).
    apply In_keys_set in H. destruct H as [->|H]; left; [|assumption].
    eapply get_Some_key, E.
  - unfold createQuadrant; destruct c; cbn; intros H; try (now left).
    apply In_keys_set in H. destruct H as [->|H]; [right; now split | now left].
  - unfold updateQuadrant.
    destruct (JsMap.get (quadrants st) k) eqn:E; destruct c; cbn;
      intros H; try (now left).
    apply In_keys_set in H. destruct H as [->|H]; left; [|assumption].
    eapply get_Some_key, E.
  - unfold createRing; destruct c; cbn; intros H; try (now left).
    apply In_keys_set in H. destruct H as [->|H]; [right; now split | now left].
  - unfold updateRing.
    destruct (JsMap.get (rings st) k) eqn:E; destruct c; cbn;
      intros H; try (now left).
    apply In_keys_set in H. destruct H as [->|H]; left; [|assumption].
    eapply get_Some_key, E.
  - unfold createProject; destruct c; cbn; intros H; try (now left).
    apply In_keys_set in H. destruct H as [->|H]; [right; now split | now left].
  - unfold updateProject.
    destruct (JsMap.get (projects st) k) eqn:E; destruct c; cbn;
      intros H; try (now left).
    apply In_keys_set in H. destruct H as [->|H]; left; [|assumption].
    eapply get_Some_key, E.
  - unfold linkTechnologyToProject; destruct c; cbn; intros H; try (now left).
    apply In_keys_set in H. destruct H as [->|H]; [right; now split | now left].
  - unfold updateTechnologyProject.
    destruct (JsMap.get (technologyProjects st) k) eqn:E; destruct c; cbn;
      intros H; try (now left).
    apply In_keys_set in H. destruct H as [->|H]; left; [|assumption].
    eapply get_Some_key, E.
Qed.

Lemma keys_below_counter_reset : keys_below_counter reset.
Proof. intros c. split; [now destruct c | destruct c; intros k []]. Qed.

Lemma keys_below_counter_perform st k :
  keys_below_counter st -> keys_below_counter (fst (perform st k)).
Proof.
  intros H c. destruct (H c) as [H1 H2].
  pose proof (perform_counter st k c) as P. split.
  - destruct (creates_on c k); destruct P as [_ ->]; lia.
  - intros id Hin. apply perform_keys in Hin.
    destruct Hin as [Hin|[Hc ->]].
    + specialize (H2 id Hin).
      destruct (creates_on c k); destruct P as [_ ->]; lia.
    + rewrite Hc in P. destruct P as [_ ->]. lia.
Qed.

Lemma keys_below_counter_run ks : forall st,
  keys_below_counter st -> keys_below_counter (fst (run st ks)).
Proof.
  induction ks as [|k ks IH]; intros st H; [exact H|].
  rewrite run_cons. cbn [fst]. now apply IH, keys_below_counter_perform.
Qed.

(** The id the next create will hand out is held by no entity: an id is
    never given a second time, and a create never overwrites. *)
Lemma next_id_is_fresh ks c :
  ~ In (counter c (fst (run reset ks))) (stored_keys c (fst (run reset ks))).
Proof.
  intros Hin.
  destruct (keys_below_counter_run ks keys_below_counter_reset c) as [_ H].
  specialize (H _ Hin). lia.
Qed.

(** In a store reached from the reset store, an id below 1 is absent. *)
Lemma getTechnology_below_one ks id :
  id < 1 -> getTechnology (fst (run reset ks)) id = None.
Proof.
  intros Hid. unfold getTechnology. apply get_None_iff. intros Hin.
  destruct (keys_below_counter_run ks keys_below_counter_reset Technologies)
    as [_ H].
  specialize (H id Hin). lia.
Qed.

(* ===================================================================== *)
(** * More on maps: insertion order *)
(* ===================================================================== *)

Section JsMapOrder.
Variable V : Type.
Implicit Types (m : JsMap.t V) (k : Z) (v : V).

Lemma keys_set m k v :
  JsMap.keys (JsMap.set m k v) = keys_add (JsMap.keys m) k.
Proof.
  unfold keys_add. induction m as [|[k0 v0] m IH]; simpl; [reflexivity|].
  destruct (k0 =? k) eqn:E.
  - apply Z.eqb_eq in E. subst k0. simpl. now rewrite Z.eqb_refl.
  - rewrite Z.eqb_sym in E. simpl. rewrite E. simpl.
    fold (JsMap.keys (JsMap.set m k v)). rewrite IH.
    now destruct (existsb (Z.eqb k) (JsMap.keys m)).
Qed.

Lemma set_get_same m k v : JsMap.get m k = Some v -> JsMap.set m k v = m.
Proof.
  induction m as [|[k0 v0] m IH]; simpl; [discriminate|].
  destruct (k0 =? k) eqn:E.
  - apply Z.eqb_eq in E. now intros [= ->]; subst.
  - intros H. now rewrite IH.
Qed.

Lemma set_set m k v v' :
  JsMap.set (JsMap.set m k v) k v' = JsMap.set m k v'.
Proof.
  induction m as [|[k0 v0] m IH]; simpl.
  - now rewrite Z.eqb_refl.
  - destruct (k0 =? k) eqn:E; simpl.
    + now rewrite Z.eqb_refl.
    + now rewrite E, IH.
Qed.

Lemma keyed_values (id : V -> Z) m :
  keyed_by id m -> List.map id (JsMap.values m) = JsMap.keys m.
Proof.
  unfold JsMap.values, JsMap.keys. intros H. rewrite map_map.
  apply map_ext_in. intros [k v] Hin. simpl. now apply H.
Qed.

Lemma In_values m v :
  In v (JsMap.values m) <-> exists k, In (k, v) m.
Proof.
  unfold JsMap.values. rewrite in_map_iff. split.
  - intros [[k v'] [<- H]]. now exists k.
  - intros [k H]. now exists (k, v).
Qed.

(** When the keys are first, first + 1, ..., the entry under first + i is
    the i-th value. *)
Lemma get_consecutive m : forall first n i,
  JsMap.keys m = consecutive first n ->
  JsMap.get m (first + i) = array_at (JsMap.values m) i.
Proof.
  unfold array_at.
  induction m as [|[k v] m IH]; intros first n i H.
  - simpl. destruct (i <? 0); [reflexivity|]. now destruct (Z.to_nat i).
  - destruct n as [|n]; [discriminate|]. simpl in H. injection H as -> H.
    simpl. destruct (Z.eqb_spec first (first + i)) as [E|E].
    + assert (i = 0) by lia. subst i. reflexivity.
    + replace (first + i) with ((first + 1) + (i - 1)) by lia.
      rewrite (IH _ _ _ H).
      destruct (Z.ltb_spec (i - 1) 0) as [L|L];
        destruct (Z.ltb_spec i 0) as [L'|L']; try lia; [reflexivity|].
      replace (Z.to_nat i) with (S (Z.to_nat (i - 1))) by lia. reflexivity.
Qed.

End JsMapOrder.

Lemma In_consecutive k : forall n first,
  In k (consecutive first n) <-> first <= k < first + Z.of_nat n.
Proof.
  induction n as [|n IH]; intros first; simpl.
  - lia.
  - rewrite IH. lia.
Qed.

Lemma consecutive_snoc : forall n first,
  consecutive first n ++ [first + Z.of_nat n] = consecutive first (S n).
Proof.
  induction n as [|n IH]; intros first.
  - simpl. now rewrite Z.add_0_r.
  - change (consecutive first (S (S n)))
      with (first :: consecutive (first + 1) (S n)).
    rewrite <- (IH (first + 1)). cbn [consecutive app].
    do 3 f_equal. lia.
Qed.

Lemma keys_add_old ks k : In k ks -> keys_add ks k = ks.
Proof.
  intros H. unfold keys_add.
  assert (E : existsb (Z.eqb k) ks = true).
  { apply existsb_exists. exists k. split; [assumption | apply Z.eqb_refl]. }
  now rewrite E.
Qed.

Lemma keys_add_new ks k : ~ In k ks -> keys_add ks k = ks ++ [k].
Proof.
  intros H. unfold keys_add.
  destruct (existsb (Z.eqb k) ks) eqn:E; [|reflexivity].
  apply existsb_exists in E. destruct E as [x [Hin Hx]].
  apply Z.eqb_eq in Hx. subst x. contradiction.
Qed.

(** The key list of a collection after a call: a create adds the counter's
    value, anything else leaves the list as it is. *)
Lemma perform_stored_keys st k c :
  stored_keys c (fst (perform st k))
  = if creates_on c k then keys_add (stored_keys c st) (counter c st)
    else stored_keys c st.
Proof.
  destruct k as [i|k u|i|k u|i|k u|i|k u|i|k u]; cbn [perform creates_on].
  - unfold createTechnology; destruct c; cbn; try reflexivity. apply keys_set.
  - unfold updateTechnology.
    destruct (JsMap.get (technologies st) k) eqn:E; destruct c; cbn;
      try reflexivity.
    etransitivity; [apply keys_set|]. apply keys_add_old.
    eapply get_Some_key, E.
  - unfold createQuadrant; destruct c; cbn; try reflexivity. apply keys_set.
  - unfold updateQuadrant.
    destruct (JsMap.get (quadrants st) k) eqn:E; destruct c; cbn;
      try reflexivity.
    etransitivity; [apply keys_set|]. apply keys_add_old.
    eapply get_Some_key, E.
  - unfold createRing; destruct c; cbn; try reflexivity. apply keys_set.
  - unfold updateRing.
    destruct (JsMap.get (rings st) k) eqn:E; destruct c; cbn;
      try reflexivity.
    etransitivity; [apply keys_set|]. apply keys_add_old.
    eapply get_Some_key, E.
  - unfold createProject; destruct c; cbn; try reflexivity. apply keys_set.
  - unfold updateProject.
    destruct (JsMap.get (projects st) k) eqn:E; destruct c; cbn;
      try reflexivity.
    etransitivity; [apply keys_set|]. apply keys_add_old.
    eapply get_Some_key, E.
  - unfold linkTechnologyToProject; destruct c; cbn; try reflexivity.
    apply keys_set.
  - unfold updateTechnologyProject.
    destruct (JsMap.get (technologyProjects st) k) eqn:E; destruct c; cbn;
      try reflexivity.
    etransitivity; [apply keys_set|]. apply keys_add_old.
    eapply get_Some_key, E.
Qed.

Lemma dense_reset : dense reset.
Proof. intros c. split; destruct c; simpl; (lia || reflexivity). Qed.

Lemma dense_perform st k : dense st -> dense (fst (perform st k)).
Proof.
  intros H c. destruct (H c) as [H1 H2].
  pose proof (perform_counter st k c) as P.
  rewrite perform_stored_keys.
  destruct (creates_on c k); destruct P as [_ ->].
  - split; [lia|]. rewrite H2, keys_add_new.
    + replace (counter c st) with (1 + Z.of_nat (Z.to_nat (counter c st - 1)))
        at 2 by lia.
      rewrite consecutive_snoc. f_equal. lia.
    + rewrite In_consecutive. lia.
  - split; assumption.
Qed.

Lemma dense_run ks : forall st, dense st -> dense (fst (run st ks)).
Proof.
  induction ks as [|k ks IH]; intros st H; [exact H|].
  rewrite run_cons. cbn [fst]. now apply IH, dense_perform.
Qed.

Lemma reachable_dense st : reachable st -> dense st.
Proof. intros [ks ->]. apply dense_run, dense_reset. Qed.

Lemma reachable_ids_are_keys st : reachable st -> ids_are_keys st.
Proof. intros [ks ->]. apply ids_are_keys_run, ids_are_keys_reset. Qed.

Lemma reachable_keys_below_counter st : reachable st -> keys_below_counter st.
Proof. intros [ks ->]. apply keys_below_counter_run, keys_below_counter_reset. Qed.

Lemma reachable_perform st k : reachable st -> reachable (fst (perform st k)).
Proof.
  intros [ks ->]. exists (ks ++ [k]).
  revert k. generalize reset. induction ks as [|k0 ks IH]; intros st k.
  - simpl. now destruct (perform st k).
  - simpl app. rewrite !run_cons. cbn [fst]. apply IH.
Qed.

Lemma run_stored_keys c ks :
  stored_keys c (fst (run reset ks)) = consecutive 1 (count_creates c ks).
Proof.
  destruct (dense_run ks dense_reset c) as [_ H]. rewrite H.
  destruct (created_ids_run c ks reset) as [_ C]. rewrite C.
  assert (R : counter c reset = 1) by now destruct c.
  rewrite R. f_equal. lia.
Qed.

(** X1: in a store built from the reset store by any calls, the list
    methods return the entities in creation order, and their ids are
    exactly 1, 2, ..., n for the n creates made on the collection. *)
Theorem list_ids_in_creation_order ks :
  let st := fst (run reset ks) in
  List.map Technology.id (getTechnologies st)
    = consecutive 1 (count_creates Technologies ks) /\
  List.map Quadrant.id (getQuadrants st)
    = consecutive 1 (count_creates Quadrants ks) /\
  List.map Ring.id (getRings st)
    = consecutive 1 (count_creates Rings ks).
Proof.
  cbv zeta.
  destruct (ids_are_keys_run ks ids_are_keys_reset) as (Ht & Hq & Hr & _).
  split_conjuncts.
  - unfold getTechnologies. rewrite (keyed_values Ht).
    apply (run_stored_keys Technologies).
  - unfold getQuadrants. rewrite (keyed_values Hq).
    apply (run_stored_keys Quadrants).
  - unfold getRings. rewrite (keyed_values Hr).
    apply (run_stored_keys Rings).
Qed.

(* ===================================================================== *)
(** * Create and update: what they leave alone *)
(* ===================================================================== *)

Lemma values_set_new (V : Type) (m : JsMap.t V) k v :
  ~ In k (JsMap.keys m) -> JsMap.values (JsMap.set m k v) = JsMap.values m ++ [v].
Proof.
  unfold JsMap.values, JsMap.keys.
  induction m as [|[k0 v0] m IH]; cbn [JsMap.set map app fst snd]; intros H;
    [reflexivity|].
  destruct (Z.eqb_spec k0 k) as [E|E]; [exfalso; apply H; now left|].
  cbn [map snd]. rewrite IH; [reflexivity|].
  intros Hin. apply H. now right.
Qed.

Lemma counter_not_stored st c :
  keys_below_counter st -> ~ In (counter c st) (stored_keys c st).
Proof.
  intros H Hin. destruct (H c) as [_ H2]. specialize (H2 _ Hin). lia.
Qed.

(** X2: in a store built from the reset store, a create appends: the list
    after it is the list before it followed by the created entity, so no
    existing entity is replaced, dropped or moved. *)
Theorem create_appends_to_list st :
  reachable st ->
  (forall i,
     getTechnologies (fst (createTechnology st i))
     = getTechnologies st ++ [snd (createTechnology st i)]) /\
  (forall i,
     getQuadrants (fst (createQuadrant st i))
     = getQuadrants st ++ [snd (createQuadrant st i)]) /\
  (forall i,
     getRings (fst (createRing st i))
     = getRings st ++ [snd (createRing st i)]).
Proof.
  intros R. apply reachable_keys_below_counter in R.
  split_conjuncts; intros i.
  - unfold getTechnologies, createTechnology. cbn.
    apply values_set_new, (counter_not_stored Technologies R).
  - unfold getQuadrants, createQuadrant. cbn.
    apply values_set_new, (counter_not_stored Quadrants R).
  - unfold getRings, createRing. cbn.
    apply values_set_new, (counter_not_stored Rings R).
Qed.

Lemma reachable_threeTechnologies : reachable threeTechnologies.
Proof. eexists. reflexivity. Qed.

Lemma reachable_oneOfEach : reachable oneOfEach.
Proof. eexists. reflexivity. Qed.

Lemma create_appends_to_list_witness :
  reachable threeTechnologies /\
  List.map Technology.name
    (getTechnologies (fst (createTechnology threeTechnologies blankOptionals)))
  = [js "Docker"; js "Docker Compose"; js "Kubernetes"; js "Git"] /\
  List.map Quadrant.name
    (getQuadrants
       (fst (createQuadrant threeTechnologies
               (InsertQuadrant.mk (js "Data") (js "Data tooling") Absent))))
  = [js "Data"] /\
  List.map Ring.name
    (getRings
       (fst (createRing threeTechnologies
               (InsertRing.mk (js "Hold") (js "Wait") Absent))))
  = [js "Hold"].
Proof.
  destruct (create_appends_to_list reachable_threeTechnologies)
    as (HT & HQ & HR).
  split; [exact reachable_threeTechnologies|]. split_conjuncts.
  - rewrite HT. reflexivity.
  - rewrite HQ. reflexivity.
  - rewrite HR. reflexivity.
Defined.

(** X3: in a store built from the reset store, a create leaves every
    entity that get could already find exactly as it was. *)
Theorem create_keeps_existing st :
  reachable st ->
  (forall i id e, getTechnology st id = Some e ->
     getTechnology (fst (createTechnology st i)) id = Some e) /\
  (forall i id e, getQuadrant st id = Some e ->
     getQuadrant (fst (createQuadrant st i)) id = Some e) /\
  (forall i id e, getRing st id = Some e ->
     getRing (fst (createRing st i)) id = Some e).
Proof.
  intros R. apply reachable_keys_below_counter in R.
  split_conjuncts; intros i id e H.
  - unfold getTechnology in *. unfold createTechnology. cbn.
    rewrite get_set_other; [assumption|]. intros <-.
    apply (counter_not_stored Technologies R). eapply get_Some_key, H.
  - unfold getQuadrant in *. unfold createQuadrant. cbn.
    rewrite get_set_other; [assumption|]. intros <-.
    apply (counter_not_stored Quadrants R). eapply get_Some_key, H.
  - unfold getRing in *. unfold createRing. cbn.
    rewrite get_set_other; [assumption|]. intros <-.
    apply (counter_not_stored Rings R). eapply get_Some_key, H.
Qed.

Lemma create_keeps_existing_witness :
  reachable oneOfEach /\
  (exists e,
     getTechnology oneOfEach 1 = Some e /\
     getTechnology (fst (createTechnology oneOfEach blankOptionals)) 1
     = Some e) /\
  (exists e,
     getQuadrant oneOfEach 1 = Some e /\
     getQuadrant
       (fst (createQuadrant oneOfEach
               (InsertQuadrant.mk (js "Data") (js "Data tooling") Absent))) 1
     = Some e) /\
  (exists e,
     getRing oneOfEach 1 = Some e /\
     getRing
       (fst (createRing oneOfEach
               (InsertRing.mk (js "Hold") (js "Wait") Absent))) 1
     = Some e).
Proof.
  destruct (create_keeps_existing reachable_oneOfEach) as (HT & HQ & HR).
  split; [exact reachable_oneOfEach|]. split_conjuncts.
  - eexists. split; [reflexivity|]. apply HT. reflexivity.
  - eexists. split; [reflexivity|]. apply HQ. reflexivity.
  - eexists. split; [reflexivity|]. apply HR. reflexivity.
Defined.

(** X4: an update of a technology changes nothing but that technology:
    get on every other id is as before, the ids are listed in the same
    order (the entity keeps its place), and the other collections and all
    counters are untouched. *)
Theorem updateTechnology_frame st id u :
  let st' := fst (updateTechnology st id u) in
  (forall id', id' <> id -> getTechnology st' id' = getTechnology st id') /\
  JsMap.keys (technologies st') = JsMap.keys (technologies st) /\
  set_technologies st' (technologies st) = st.
Proof.
  cbv zeta. unfold updateTechnology, getTechnology.
  destruct (JsMap.get (technologies st) id) eqn:E; cbn.
  - split_conjuncts.
    + intros id' Hne. now apply get_set_other.
    + etransitivity; [apply keys_set|].
      apply keys_add_old. eapply get_Some_key, E.
    + now destruct st.
  - split_conjuncts; try reflexivity. now destruct st.
Qed.

Lemma updateTechnology_frame_witness :
  2 <> 1 /\
  getTechnology (fst (updateTechnology threeTechnologies 1 nullWebsite)) 2
  = Some dockerComposeStored.
Proof.
  assert (N : 2 <> 1) by discriminate.
  split; [exact N|].
  rewrite (proj1 (updateTechnology_frame threeTechnologies 1 nullWebsite) 2 N).
  reflexivity.
Defined.

(** X5: the same for quadrants and rings: an update changes one entity
    and nothing else. *)
Theorem updateQuadrant_updateRing_frame st id :
  (forall u,
     let st' := fst (updateQuadrant st id u) in
     (forall id', id' <> id -> getQuadrant st' id' = getQuadrant st id') /\
     JsMap.keys (quadrants st') = JsMap.keys (quadrants st) /\
     set_quadrants st' (quadrants st) = st) /\
  (forall u,
     let st' := fst (updateRing st id u) in
     (forall id', id' <> id -> getRing st' id' = getRing st id') /\
     JsMap.keys (rings st') = JsMap.keys (rings st) /\
     set_rings st' (rings st) = st).
Proof.
  split; intros u; cbv zeta.
  - unfold updateQuadrant, getQuadrant.
    destruct (JsMap.get (quadrants st) id) eqn:E; cbn.
    + split_conjuncts.
      * intros id' Hne. now apply get_set_other.
      * etransitivity; [apply keys_set|].
        apply keys_add_old. eapply get_Some_key, E.
      * now destruct st.
    + split_conjuncts; try reflexivity. now destruct st.
  - unfold updateRing, getRing.
    destruct (JsMap.get (rings st) id) eqn:E; cbn.
    + split_conjuncts.
      * intros id' Hne. now apply get_set_other.
      * etransitivity; [apply keys_set|].
        apply keys_add_old. eapply get_Some_key, E.
      * now destruct st.
    + split_conjuncts; try reflexivity. now destruct st.
Qed.

Lemma updateQuadrant_updateRing_frame_witness :
  2 <> 1 /\
  getQuadrant (fst (updateQuadrant seedQuadrantsAndRings 1
                      PartialInsertQuadrant.none)) 2
  = getQuadrant seedQuadrantsAndRings 2 /\
  getRing (fst (updateRing seedQuadrantsAndRings 1 PartialInsertRing.none)) 2
  = getRing seedQuadrantsAndRings 2.
Proof.
  assert (N : 2 <> 1) by discriminate.
  destruct (updateQuadrant_updateRing_frame seedQuadrantsAndRings 1)
    as [HQ HR].
  split; [exact N|]. split.
  - exact (proj1 (HQ PartialInsertQuadrant.none) 2 N).
  - exact (proj1 (HR PartialInsertRing.none) 2 N).
Defined.

Lemma spread_spread (A : Type) (x : A) (u : optional A) :
  spread (spread x u) u = spread x u.
Proof. now destruct u. Qed.

(** X6: an update with the empty partial input [{}] on an id that exists
    changes nothing: the store is as before and the entity is returned as
    it was. *)
Theorem update_with_empty_input st id :
  (forall e, getTechnology st id = Some e ->
     updateTechnology st id PartialInsertTechnology.none = (st, Some e)) /\
  (forall e, getQuadrant st id = Some e ->
     updateQuadrant st id PartialInsertQuadrant.none = (st, Some e)) /\
  (forall e, getRing st id = Some e ->
     updateRing st id PartialInsertRing.none = (st, Some e)).
Proof.
  split_conjuncts; intros e H.
  - unfold getTechnology in H. unfold updateTechnology. rewrite H.
    destruct e; cbn. rewrite (set_get_same _ _ H). now destruct st.
  - unfold getQuadrant in H. unfold updateQuadrant. rewrite H.
    destruct e; cbn. rewrite (set_get_same _ _ H). now destruct st.
  - unfold getRing in H. unfold updateRing. rewrite H.
    destruct e; cbn. rewrite (set_get_same _ _ H). now destruct st.
Qed.

Lemma update_with_empty_input_witness :
  (exists e,
     getTechnology oneOfEach 1 = Some e /\
     updateTechnology oneOfEach 1 PartialInsertTechnology.none
     = (oneOfEach, Some e)) /\
  (exists e,
     getQuadrant oneOfEach 1 = Some e /\
     updateQuadrant oneOfEach 1 PartialInsertQuadrant.none
     = (oneOfEach, Some e)) /\
  (exists e,
     getRing oneOfEach 1 = Some e /\
     updateRing oneOfEach 1 PartialInsertRing.none = (oneOfEach, Some e)).
Proof.
  destruct (update_with_empty_input oneOfEach 1) as (HT & HQ & HR).
  split_conjuncts.
  - eexists. split; [reflexivity|]. apply HT. reflexivity.
  - eexists. split; [reflexivity|]. apply HQ. reflexivity.
  - eexists. split; [reflexivity|]. apply HR. reflexivity.
Defined.

(** X7: an update is idempotent: making the same update a second time
    returns the same entity and leaves the store as the first one left it
    (also when the id is missing). *)
Theorem update_twice st id :
  (forall u,
     updateTechnology (fst (updateTechnology st id u)) id u
     = updateTechnology st id u) /\
  (forall u,
     updateQuadrant (fst (updateQuadrant st id u)) id u
     = updateQuadrant st id u) /\
  (forall u,
     updateRing (fst (updateRing st id u)) id u = updateRing st id u).
Proof.
  split_conjuncts; intros u.
  - unfold updateTechnology.
    destruct (JsMap.get (technologies st) id) eqn:E; cbn.
    + rewrite get_set_same. cbn. rewrite !spread_spread, set_set.
      reflexivity.
    + now rewrite E.
  - unfold updateQuadrant.
    destruct (JsMap.get (quadrants st) id) eqn:E; cbn.
    + rewrite get_set_same. cbn. rewrite !spread_spread, set_set.
      reflexivity.
    + now rewrite E.
  - unfold updateRing.
    destruct (JsMap.get (rings st) id) eqn:E; cbn.
    + rewrite get_set_same. cbn. rewrite !spread_spread, set_set.
      reflexivity.
    + now rewrite E.
Qed.

(* ===================================================================== *)
(** * Positions and ids *)
(* ===================================================================== *)

Lemma array_at_values_get (V : Type) (m : JsMap.t V) n i :
  JsMap.keys m = consecutive 1 n ->
  array_at (JsMap.values m) i = JsMap.get m (i + 1).
Proof.
  intros H. rewrite Z.add_comm. symmetry. eapply get_consecutive, H.
Qed.

(** X8: the radar looks a technology's quadrant and ring up by position
    in the lists the store returns.  In a store built from the reset store
    position i of the list holds the entity with id i + 1, so the label
    shown is the name of the quadrant (ring) whose id is the technology's
    quadrant (ring) value plus one, and there is none exactly when there is
    no such id. *)
Theorem label_is_entity_with_next_id st tech :
  reachable st ->
  Radar.quadrantName (getQuadrants st) tech
    = option_map Quadrant.name (getQuadrant st (Technology.quadrant tech + 1)) /\
  Radar.ringName (getRings st) tech
    = option_map Ring.name (getRing st (Technology.ring tech + 1)).
Proof.
  intros R. apply reachable_dense in R.
  unfold Radar.quadrantName, Radar.ringName, getQuadrants, getRings,
    getQuadrant, getRing.
  split; f_equal; eapply array_at_values_get.
  - apply (proj2 (R Quadrants)).
  - apply (proj2 (R Rings)).
Qed.

Lemma reachable_seedQuadrantsAndRings : reachable seedQuadrantsAndRings.
Proof.
  exists (List.map CreateQuadrant seedQuadrants ++ List.map CreateRing seedRings).
  vm_compute. reflexivity.
Qed.

Lemma label_is_entity_with_next_id_witness :
  reachable seedQuadrantsAndRings /\
  Radar.quadrantName (getQuadrants seedQuadrantsAndRings) dockerComposeStored
    = Some (js "Tools") /\
  Radar.ringName (getRings seedQuadrantsAndRings) dockerComposeStored
    = Some (js "Trial").
Proof.
  split; [exact reachable_seedQuadrantsAndRings|].
  destruct (label_is_entity_with_next_id dockerComposeStored
              reachable_seedQuadrantsAndRings) as [HQ HR].
  split; [rewrite HQ | rewrite HR]; reflexivity.
Defined.

(* ===================================================================== *)
(** * More on search *)
(* ===================================================================== *)

Lemma substring_of_refl s : substring_of s s.
Proof. exists [], []. now rewrite app_nil_r. Qed.

Lemma substring_of_trans a b c :
  substring_of a b -> substring_of b c -> substring_of a c.
Proof.
  intros (p1 & s1 & ->) (p2 & s2 & ->).
  exists (p2 ++ p1), (s1 ++ s2). now rewrite !app_assoc.
Qed.

Section MoreSearch.
Variable toLowerCase : jsstring -> jsstring.

Lemma search_In_list st q tech :
  In tech (searchTechnologies toLowerCase st q) ->
  In tech (getTechnologies st).
Proof.
  unfold searchTechnologies.
  destruct (JsString.is_empty q || JsString.is_empty (JsString.trim q));
    [trivial|].
  intros H. apply filter_In in H. apply H.
Qed.

(** A stored technology that matches is found, whatever the query (a
    blank query finds everything). *)
Lemma search_finds st q tech :
  In tech (getTechnologies st) -> tech_matches toLowerCase q tech ->
  In tech (searchTechnologies toLowerCase st q).
Proof.
  intros Hin Hm. unfold searchTechnologies.
  destruct (JsString.is_empty q || JsString.is_empty (JsString.trim q));
    [assumption|].
  apply filter_In. split; [assumption|]. now apply searchFilter_matches.
Qed.

Lemma tech_matches_narrow q1 q2 tech :
  substring_of (toLowerCase q1) (toLowerCase q2) ->
  tech_matches toLowerCase q2 tech -> tech_matches toLowerCase q1 tech.
Proof.
  intros Hq [H|[H|(tags & tag & Ht & Hin & H)]].
  - left. eapply substring_of_trans; eassumption.
  - right; left. eapply substring_of_trans; eassumption.
  - right; right. exists tags, tag. split; [assumption|]. split; [assumption|].
    eapply substring_of_trans; eassumption.
Qed.

End MoreSearch.

(** X9: a stored technology is always found by its own name, by its own
    description and by any one of its tags, typed in full. *)
Theorem search_by_own_text toLowerCase st tech :
  In tech (getTechnologies st) ->
  In tech (searchTechnologies toLowerCase st (Technology.name tech)) /\
  In tech (searchTechnologies toLowerCase st (Technology.description tech)) /\
  (forall tags tag, Technology.tags tech = Some tags -> In tag tags ->
     In tech (searchTechnologies toLowerCase st tag)).
Proof.
  intros Hin. split_conjuncts.
  - apply search_finds; [assumption|]. left. apply substring_of_refl.
  - apply search_finds; [assumption|]. right; left. apply substring_of_refl.
  - intros tags tag Ht Htag. apply search_finds; [assumption|].
    right; right. exists tags, tag. auto using substring_of_refl.
Qed.

Lemma search_by_own_text_witness :
  exists tech,
    getTechnology threeTechnologies 3 = Some tech /\
    In tech (getTechnologies threeTechnologies) /\
    In tech
       (searchTechnologies JsString.ascii_toLowerCase threeTechnologies
          (js "Kubernetes")) /\
    In tech
       (searchTechnologies JsString.ascii_toLowerCase threeTechnologies
          (js "An open-source system for automating deployment and scaling.")) /\
    In tech
       (searchTechnologies JsString.ascii_toLowerCase threeTechnologies
          (js "orchestration")).
Proof.
  eexists. split; [reflexivity|].
  match goal with |- In ?t _ /\ _ =>
    assert (H : In t (getTechnologies threeTechnologies))
      by (right; right; left; reflexivity);
    destruct (search_by_own_text JsString.ascii_toLowerCase
                threeTechnologies t H) as (Hn & Hd & Ht)
  end.
  split; [exact H|]. split; [exact Hn|]. split; [exact Hd|].
  apply (Ht _ (js "orchestration") eq_refl). right. left. reflexivity.
Defined.

(** X10: typing more narrows the result: when the lowercased query q1
    occurs inside the lowercased query q2 and q2 is not blank, everything
    the search for q2 returns is also returned by the search for q1. *)
Theorem longer_query_narrows toLowerCase st q1 q2 :
  substring_of (toLowerCase q1) (toLowerCase q2) ->
  ~ only_whitespace q2 ->
  incl (searchTechnologies toLowerCase st q2)
       (searchTechnologies toLowerCase st q1).
Proof.
  intros Hq Hw tech Hin.
  rewrite searchTechnologies_filter in Hin by assumption.
  apply filter_In in Hin. destruct Hin as [Hin Hm].
  apply searchFilter_matches in Hm.
  apply search_finds; [assumption|].
  eapply tech_matches_narrow; eassumption.
Qed.

Lemma longer_query_narrows_witness :
  substring_of (JsString.ascii_toLowerCase (js "Dock"))
               (JsString.ascii_toLowerCase (js "docker c")) /\
  ~ only_whitespace (js "docker c") /\
  incl (searchTechnologies JsString.ascii_toLowerCase threeTechnologies
          (js "docker c"))
       (searchTechnologies JsString.ascii_toLowerCase threeTechnologies
          (js "Dock")).
Proof.
  assert (S : substring_of (JsString.ascii_toLowerCase (js "Dock"))
                           (JsString.ascii_toLowerCase (js "docker c")))
    by (exists (js ""), (js "er c"); reflexivity).
  assert (W : ~ only_whitespace (js "docker c"))
    by (intros H; inversion H; discriminate).
  split; [exact S|]. split; [exact W|].
  exact (@longer_query_narrows JsString.ascii_toLowerCase threeTechnologies
           (js "Dock") (js "docker c") S W).
Defined.

(** X11: the search does not see the case of the query: two queries that
    are not blank and lowercase to the same string return the same list. *)
Theorem search_ignores_query_case toLowerCase st q1 q2 :
  toLowerCase q1 = toLowerCase q2 ->
  ~ only_whitespace q1 -> ~ only_whitespace q2 ->
  searchTechnologies toLowerCase st q1 = searchTechnologies toLowerCase st q2.
Proof.
  intros E H1 H2. rewrite !searchTechnologies_filter by assumption.
  now rewrite E.
Qed.

Lemma search_ignores_query_case_witness :
  JsString.ascii_toLowerCase (js "DOCKER")
    = JsString.ascii_toLowerCase (js "docker") /\
  ~ only_whitespace (js "DOCKER") /\ ~ only_whitespace (js "docker") /\
  searchTechnologies JsString.ascii_toLowerCase threeTechnologies (js "DOCKER")
  = searchTechnologies JsString.ascii_toLowerCase threeTechnologies
      (js "docker").
Proof.
  assert (E : JsString.ascii_toLowerCase (js "DOCKER")
              = JsString.ascii_toLowerCase (js "docker")) by reflexivity.
  assert (W1 : ~ only_whitespace (js "DOCKER"))
    by (intros H; inversion H; discriminate).
  assert (W2 : ~ only_whitespace (js "docker"))
    by (intros H; inversion H; discriminate).
  split; [exact E|]. split; [exact W1|]. split; [exact W2|].
  exact (@search_ignores_query_case JsString.ascii_toLowerCase
           threeTechnologies (js "DOCKER") (js "docker") E W1 W2).
Defined.

(** X12: a technology just created is found by the search for the name
    it was created with, from any store. *)
Theorem created_is_found_by_name toLowerCase st i :
  let (st', created) := createTechnology st i in
  In created (searchTechnologies toLowerCase st' (InsertTechnology.name i)).
Proof.
  pose proof (getTechnology_createTechnology st i) as G.
  destruct (createTechnology st i) as [st' created] eqn:E.
  cbn [fst snd] in G.
  apply search_finds.
  - unfold getTechnologies. apply In_values. exists (Technology.id created).
    now apply get_Some_In.
  - left. unfold createTechnology in E. injection E as _ <-. cbn.
    apply substring_of_refl.
Qed.

Lemma StronglySorted_map_filter (A : Type) (f : A -> Z) (p : A -> bool) l :
  StronglySorted Z.lt (List.map f l) ->
  StronglySorted Z.lt (List.map f (filter p l)).
Proof.
  induction l as [|a l IH]; simpl; intros H; [constructor|].
  inversion H as [|x xs Hs Hall]; subst.
  destruct (p a); [|now apply IH].
  simpl. constructor; [now apply IH|].
  rewrite Forall_forall in *. intros y Hy. apply Hall.
  apply in_map_iff in Hy. destruct Hy as [z [<- Hz]].
  apply filter_In in Hz. now apply in_map.
Qed.

(** X13: in a store built from the reset store, the search returns its
    results by strictly increasing id, for every query: in creation order
    and with no technology listed twice. *)
Theorem search_results_by_increasing_id toLowerCase ks q :
  StronglySorted Z.lt
    (List.map Technology.id
       (searchTechnologies toLowerCase (fst (run reset ks)) q)).
Proof.
  assert (S : StronglySorted Z.lt
                (List.map Technology.id (getTechnologies (fst (run reset ks))))).
  { destruct (ids_are_keys_run ks ids_are_keys_reset) as (Ht & _).
    unfold getTechnologies. rewrite (keyed_values Ht).
    pose proof (run_stored_keys Technologies ks) as K.
    cbn [stored_keys] in K. rewrite K. apply consecutive_increasing. }
  unfold searchTechnologies.
  destruct (JsString.is_empty q || JsString.is_empty (JsString.trim q));
    [exact S|].
  now apply StronglySorted_map_filter.
Qed.

(* ===================================================================== *)
(** * The radar component *)
(* ===================================================================== *)

Lemma handleSearchFilter_searchFilter toLowerCase q tech :
  Radar.handleSearchFilter toLowerCase q tech
  = searchFilter toLowerCase (toLowerCase q) tech.
Proof. reflexivity. Qed.

Lemma filter_filter (A : Type) (p : A -> bool) l :
  filter p (filter p l) = filter p l.
Proof.
  induction l as [|a l IH]; simpl; [reflexivity|].
  destruct (p a) eqn:E; simpl; [rewrite E|]; now rewrite ?IH.
Qed.

Lemma truthy_not_blank q : ~ only_whitespace q -> JsString.truthy q = true.
Proof.
  intros H. destruct q; [exfalso; apply H; constructor | reflexivity].
Qed.

(** X14: [handleSearch] with an empty query clears the results (null); with
    any other query the results are exactly the technologies of the current
    list in which the lowercased query occurs in the lowercased name, the
    lowercased description or a lowercased tag.  The selection, the
    quadrant filter and the query itself are left as they are. *)
Theorem handleSearch_results toLowerCase technologies s :
  let s' := Radar.handleSearch toLowerCase technologies s in
  (Radar.searchQuery s = js "" -> Radar.searchResults s' = None) /\
  (Radar.searchQuery s <> js "" ->
   exists results,
     Radar.searchResults s' = Some results /\
     forall tech,
       In tech results <->
       In tech technologies /\
       tech_matches toLowerCase (Radar.searchQuery s) tech) /\
  Radar.selectedTech s' = Radar.selectedTech s /\
  Radar.selectedQuadrant s' = Radar.selectedQuadrant s /\
  Radar.searchQuery s' = Radar.searchQuery s.
Proof.
  cbv zeta. unfold Radar.handleSearch.
  destruct (Radar.searchQuery s) as [|c q] eqn:E; cbn.
  - split_conjuncts; try reflexivity. intros H. now elim H.
  - split_conjuncts; try reflexivity; [discriminate|].
    intros _. eexists. split; [reflexivity|]. intros tech.
    rewrite filter_In, handleSearchFilter_searchFilter.
    now rewrite searchFilter_matches.
Qed.

Lemma handleSearch_results_witness :
  let s := Radar.mk None None (js "compose") None false in
  Radar.searchQuery s <> js "" /\
  Radar.searchQuery Radar.initial = js "" /\
  Radar.searchResults
    (Radar.handleSearch JsString.ascii_toLowerCase
       (getTechnologies threeTechnologies) Radar.initial) = None /\
  exists results,
    Radar.searchResults
      (Radar.handleSearch JsString.ascii_toLowerCase
         (getTechnologies threeTechnologies) s) = Some results /\
    In dockerComposeStored results.
Proof.
  cbv zeta.
  assert (N : Radar.searchQuery (Radar.mk None None (js "compose") None false)
              <> js "") by discriminate.
  split; [exact N|]. split; [reflexivity|]. split.
  - exact (proj1 (handleSearch_results JsString.ascii_toLowerCase
                    (getTechnologies threeTechnologies) Radar.initial)
             eq_refl).
  - destruct (handleSearch_results JsString.ascii_toLowerCase
                (getTechnologies threeTechnologies)
                (Radar.mk None None (js "compose") None false))
      as (_ & H & _).
    destruct (H N) as (results & Hr & Hin).
    exists results. split; [exact Hr|].
    apply Hin. split.
    + right. left. reflexivity.
    + left. exists (js "docker "), (js ""). reflexivity.
Defined.

(** X15: for a query that is not blank, the results [handleSearch]
    computes in the browser are the list the store's [searchTechnologies]
    returns for the same query, whether the component holds the full
    technology list or already the store's answer to that query. *)
Theorem handleSearch_agrees_with_store toLowerCase st s :
  ~ only_whitespace (Radar.searchQuery s) ->
  Radar.searchResults
    (Radar.handleSearch toLowerCase (getTechnologies st) s)
  = Some (searchTechnologies toLowerCase st (Radar.searchQuery s)) /\
  Radar.searchResults
    (Radar.handleSearch toLowerCase
       (searchTechnologies toLowerCase st (Radar.searchQuery s)) s)
  = Some (searchTechnologies toLowerCase st (Radar.searchQuery s)).
Proof.
  intros H. unfold Radar.handleSearch.
  rewrite (truthy_not_blank H). cbn [Radar.searchResults].
  rewrite (searchTechnologies_filter toLowerCase st H).
  split; [reflexivity|]. f_equal. apply filter_filter.
Qed.

Lemma handleSearch_agrees_with_store_witness :
  let s := Radar.mk None None (js "Docker") None false in
  ~ only_whitespace (Radar.searchQuery s) /\
  Radar.searchResults
    (Radar.handleSearch JsString.ascii_toLowerCase
       (getTechnologies threeTechnologies) s)
  = Some (searchTechnologies JsString.ascii_toLowerCase threeTechnologies
            (js "Docker")).
Proof.
  cbv zeta.
  assert (W : ~ only_whitespace
                (Radar.searchQuery (Radar.mk None None (js "Docker") None false)))
    by (intros H; inversion H; discriminate).
  split; [exact W|].
  exact (proj1 (@handleSearch_agrees_with_store JsString.ascii_toLowerCase
                  threeTechnologies
                  (Radar.mk None None (js "Docker") None false) W)).
Defined.

(** For a query of white space only the two differ: the store returns
    every technology, [handleSearch] only those that contain the white
    space run. *)
Example blank_query_store_and_component :
  let s := Radar.mk None None (js "   ") None false in
  List.length
    (searchTechnologies JsString.ascii_toLowerCase threeTechnologies
       (js "   ")) = 3%nat /\
  Radar.searchResults
    (Radar.handleSearch JsString.ascii_toLowerCase
       (getTechnologies threeTechnologies) s) = Some [].
Proof. split; reflexivity. Qed.



Lemma filter_none (A : Type) (p : A -> bool) l :
  (forall y, In y l -> p y = false) -> filter p l = [].
Proof.
  induction l as [|a l IH]; simpl; intros H; [reflexivity|].
  rewrite (H a (or_introl eq_refl)). apply IH. intros y Hy. apply H. now right.
Qed.

Lemma filter_same_key (A : Type) (f : A -> Z) (x : A) l :
  NoDup (List.map f l) -> In x l ->
  filter (fun y => f x =? f y) l = [x].
Proof.
  induction l as [|a l IH]; simpl; intros Hnd Hin; [contradiction|].
  inversion Hnd as [|? ? Hnotin Hnd']; subst.
  destruct Hin as [->|Hin].
  - rewrite Z.eqb_refl. f_equal.
    apply filter_none. intros y Hy.
    apply Z.eqb_neq. intros E. apply Hnotin. rewrite E. now apply in_map.
  - destruct (Z.eqb_spec (f x) (f a)) as [E|E].
    + exfalso. apply Hnotin. rewrite <- E. now apply in_map.
    + now apply IH.
Qed.

(** X17: when the technologies are the list of a store built from the
    reset store and the selected technology is one of them, the radar
    marks exactly one dot as selected, that technology's. *)
Theorem one_dot_selected ks s sel :
  Radar.selectedTech s = Some sel ->
  In sel (getTechnologies (fst (run reset ks))) ->
  filter (Radar.isSelected s) (getTechnologies (fst (run reset ks))) = [sel].
Proof.
  intros Hs Hin.
  assert (Hnd : NoDup (List.map Technology.id
                         (getTechnologies (fst (run reset ks))))).
  { destruct (ids_are_keys_run ks ids_are_keys_reset) as (Ht & _).
    unfold getTechnologies. rewrite (keyed_values Ht).
    pose proof (run_stored_keys Technologies ks) as K.
    cbn [stored_keys] in K. rewrite K.
    apply StronglySorted_lt_NoDup, consecutive_increasing. }
  rewrite <- (filter_same_key Technology.id sel _ Hnd Hin).
  apply filter_ext. intros tech. unfold Radar.isSelected. now rewrite Hs.
Qed.

Lemma one_dot_selected_witness :
  let s := Radar.clickTech dockerComposeStored Radar.initial in
  Radar.selectedTech s = Some dockerComposeStored /\
  In dockerComposeStored (getTechnologies threeTechnologies) /\
  filter (Radar.isSelected s) (getTechnologies threeTechnologies)
  = [dockerComposeStored].
Proof.
  cbv zeta.
  assert (H : In dockerComposeStored (getTechnologies threeTechnologies))
    by (right; left; reflexivity).
  split; [reflexivity|]. split; [exact H|].
  exact (@one_dot_selected
           [CreateTechnology docker; CreateTechnology dockerCompose;
            CreateTechnology kubernetes]
           (Radar.clickTech dockerComposeStored Radar.initial)
           dockerComposeStored eq_refl H).
Defined.

(* ===================================================================== *)
(** * Calls on different collections *)
(* ===================================================================== *)






(* ===================================================================== *)
(** * Update and create, seen through get and search *)
(* ===================================================================== *)

(** X19: after a technology is renamed with the partial input
    [{ name: x }], the search for x finds it, under whatever case x is
    written. *)
Theorem renamed_is_found_by_new_name toLowerCase st id x e :
  getTechnology st id = Some e ->
  exists renamed,
    snd (updateTechnology st id (onlyName x)) = Some renamed /\
    Technology.name renamed = x /\
    Technology.id renamed = Technology.id e /\
    In renamed
       (searchTechnologies toLowerCase
          (fst (updateTechnology st id (onlyName x))) x).
Proof.
  intros H.
  destruct (updateTechnology_found st id (onlyName x) H)
    as (renamed & Hr & Hg & Hm).
  destruct Hm as (Hid & Hname & _).
  assert (N : Technology.name renamed = x) by (apply Hname; reflexivity).
  exists renamed. split_conjuncts; try assumption.
  apply search_finds.
  - unfold getTechnologies. apply In_values. exists id.
    now apply get_Some_In.
  - left. rewrite N. apply substring_of_refl.
Qed.

Lemma renamed_is_found_by_new_name_witness :
  getTechnology threeTechnologies 3 <> None /\
  exists renamed,
    snd (updateTechnology threeTechnologies 3 (onlyName (js "K8s")))
      = Some renamed /\
    In renamed
       (searchTechnologies JsString.ascii_toLowerCase
          (fst (updateTechnology threeTechnologies 3 (onlyName (js "K8s"))))
          (js "K8s")).
Proof.
  split; [discriminate|].
  destruct (@renamed_is_found_by_new_name JsString.ascii_toLowerCase
              threeTechnologies 3 (js "K8s") _ eq_refl)
    as (renamed & Hr & _ & _ & Hin).
  exists renamed. split; assumption.
Defined.

(** X20: [createQuadrant] and [createRing] store the new entity under the
    counter's value, with the name and the description as given; a colour
    that is a non-empty string is kept, a colour that is missing, null or
    the empty string becomes null. *)
Theorem createQuadrant_createRing_store_input st :
  (forall i, exists e,
     getQuadrant (fst (createQuadrant st i)) (quadrantCurrentId st) = Some e /\
     Quadrant.id e = quadrantCurrentId st /\
     Quadrant.name e = InsertQuadrant.name i /\
     Quadrant.description e = InsertQuadrant.description i /\
     (forall c, c <> js "" -> InsertQuadrant.color i = Present (Some c) ->
        Quadrant.color e = Some c) /\
     (InsertQuadrant.color i = Absent \/
      InsertQuadrant.color i = Present None \/
      InsertQuadrant.color i = Present (Some (js "")) ->
      Quadrant.color e = None)) /\
  (forall i, exists e,
     getRing (fst (createRing st i)) (ringCurrentId st) = Some e /\
     Ring.id e = ringCurrentId st /\
     Ring.name e = InsertRing.name i /\
     Ring.description e = InsertRing.description i /\
     (forall c, c <> js "" -> InsertRing.color i = Present (Some c) ->
        Ring.color e = Some c) /\
     (InsertRing.color i = Absent \/
      InsertRing.color i = Present None \/
      InsertRing.color i = Present (Some (js "")) ->
      Ring.color e = None)).
Proof.
  split; intros i; eexists.
  - split; [apply (getQuadrant_createQuadrant st i)|].
    unfold createQuadrant; cbn. split_conjuncts; try reflexivity.
    + intros c Hc ->. destruct c; [now elim Hc | reflexivity].
    + intros [->|[->| ->]]; reflexivity.
  - split; [apply (getRing_createRing st i)|].
    unfold createRing; cbn. split_conjuncts; try reflexivity.
    + intros c Hc ->. destruct c; [now elim Hc | reflexivity].
    + intros [->|[->| ->]]; reflexivity.
Qed.

Lemma createQuadrant_createRing_store_input_witness :
  let q := InsertQuadrant.mk (js "Data") (js "Data tooling")
             (Present (Some (js ""))) in
  let r := InsertRing.mk (js "Retire") (js "Phase out")
             (Present (Some (js "#000000"))) in
  (exists e,
     getQuadrant (fst (createQuadrant seedQuadrantsAndRings q)) 5 = Some e /\
     Quadrant.name e = js "Data" /\
     Quadrant.color e = None) /\
  (exists e,
     getRing (fst (createRing seedQuadrantsAndRings r)) 5 = Some e /\
     Ring.name e = js "Retire" /\
     Ring.color e = Some (js "#000000")).
Proof.
  cbv zeta.
  destruct (createQuadrant_createRing_store_input seedQuadrantsAndRings)
    as [HQ HR].
  split.
  - destruct (HQ (InsertQuadrant.mk (js "Data") (js "Data tooling")
                    (Present (Some (js "")))))
      as (e & Hg & _ & Hn & _ & _ & Hc).
    exists e. split; [exact Hg|]. split; [exact Hn|].
    apply Hc. right. right. reflexivity.
  - destruct (HR (InsertRing.mk (js "Retire") (js "Phase out")
                    (Present (Some (js "#000000")))))
      as (e & Hg & _ & Hn & _ & Hc & _).
    exists e. split; [exact Hg|]. split; [exact Hn|].
    apply Hc; [discriminate | reflexivity].
Defined.

(** X21: [createTechnology] validates nothing: it stores the new entity
    under the counter's value with the name, the description and the
    quadrant and ring numbers exactly as given, whatever they are; a
    non-empty website or custom_properties string and a given tags array
    are kept; the tags of a created technology are never null; and the
    counter moves up by one. *)
Theorem createTechnology_stores_input st i :
  exists e,
    getTechnology (fst (createTechnology st i)) (techCurrentId st) = Some e /\
    techCurrentId (fst (createTechnology st i)) = techCurrentId st + 1 /\
    Technology.id e = techCurrentId st /\
    Technology.name e = InsertTechnology.name i /\
    Technology.description e = InsertTechnology.description i /\
    Technology.quadrant e = InsertTechnology.quadrant i /\
    Technology.ring e = InsertTechnology.ring i /\
    (forall w, w <> js "" -> InsertTechnology.website i = Present (Some w) ->
       Technology.website e = Some w) /\
    (forall p, p <> js "" ->
       InsertTechnology.custom_properties i = Present (Some p) ->
       Technology.custom_properties e = Some p) /\
    (forall l, InsertTechnology.tags i = Present (Some l) ->
       Technology.tags e = Some l) /\
    Technology.tags e <> None.
Proof.
  eexists. split; [apply (getTechnology_createTechnology st i)|].
  unfold createTechnology; cbn. split_conjuncts; try reflexivity.
  - intros w Hw ->. destruct w; [now elim Hw | reflexivity].
  - intros p Hp ->. destruct p; [now elim Hp | reflexivity].
  - now intros l ->.
  - destruct (InsertTechnology.tags i) as [|[l|]]; discriminate.
Qed.

Lemma createTechnology_stores_input_witness :
  let i := InsertTechnology.mk (js "Nowhere") (js "Outside the radar") (-5) 99
             (Present (Some (js "https://example.com")))
             (Present (Some [js "lost"]))
             (Present (Some (js "{}"))) in
  exists e,
    getTechnology (fst (createTechnology seedQuadrantsAndRings i)) 1 = Some e /\
    Technology.quadrant e = -5 /\ Technology.ring e = 99 /\
    Technology.website e = Some (js "https://example.com") /\
    Technology.custom_properties e = Some (js "{}") /\
    Technology.tags e = Some [js "lost"].
Proof.
  cbv zeta.
  destruct (createTechnology_stores_input seedQuadrantsAndRings
              (InsertTechnology.mk (js "Nowhere") (js "Outside the radar")
                 (-5) 99 (Present (Some (js "https://example.com")))
                 (Present (Some [js "lost"])) (Present (Some (js "{}")))))
    as (e & Hg & _ & _ & _ & _ & Hq & Hr & Hw & Hp & Ht & _).
  exists e. split; [exact Hg|]. split; [exact Hq|]. split; [exact Hr|].
  split; [apply Hw; [discriminate | reflexivity]|].
  split; [apply Hp; [discriminate | reflexivity]|].
  apply Ht. reflexivity.
Defined.

(* ===================================================================== *)
(** * The seeded catalogue *)
(* ===================================================================== *)

(** X22: after the quadrant, ring and technology creates of
    [initializeData] the store lists 35 technologies with the ids 1 to 35,
    and the quadrant and ring names the radar shows for them are, in
    order, those of the groups the comments of [initializeData] announce:
    the 0-based quadrant and ring numbers of the seed data point at the
    quadrants and rings meant. *)
Theorem seeded_labels_match_groups :
  List.map Technology.id (getTechnologies seedCatalog) = consecutive 1 35 /\
  List.map
    (fun tech =>
       (Radar.quadrantName (getQuadrants seedCatalog) tech,
        Radar.ringName (getRings seedCatalog) tech))
    (getTechnologies seedCatalog)
  = flat_map
      (fun g => repeat (Some (fst (fst g)), Some (snd (fst g))) (snd g))
      seedGroups.
Proof. vm_compute. split; reflexivity. Qed.
